(** * battery_report: the extraction engine of [battery_health.py]

    A shallow embedding of the parsing core of [battery_health.py] (the HTML
    table tokenizer, the scalar extractors and the three section extractors)
    together with the properties stated about it.

    Conventions of the embedding.
    - A Python [str] is a [list ascii], a text of code points below 256;
      string literals are read through the coercion [list_ascii_of_string].
      The character classes are those of Python on these code points: the
      superscripts U+00B2, U+00B3 and U+00B9 are digits for [str.isdigit]
      but not decimal digits, and U+0085 and U+00A0 are white space for
      [int].
    - A Python exception is a value of [exn]; a computation that may raise
      has type [result A].  The names used in the written specification map
      onto the raise sites as follows:
        NoTableFound            [IndexError] of [html_text.split("<table>")[1]]
        SectionNotFound         [IndexError] of [report.split(anchor)[1]]
        NoDigitsFound           [ValueError] of [int("")] in [__str_to_int]
        UnrecognizedDateFormat  [UnboundLocalError] of [return date]
        MalformedBatteryTable   [IndexError] of [table[k]]
    - [datetime.date] is a record of year, month and day; [timedelta] is its
      total number of microseconds. *)

From Stdlib Require Import ZArith Ascii String Lia.
From stdpp Require Import list strings.

Local Open Scope Z_scope.

Coercion list_ascii_of_string : string >-> list.

Abbreviation str := (list ascii).

(** ** Exceptions and the error monad *)

Inductive exn : Type :=
| IndexError
| ValueError
| UnboundLocalError
| OverflowError.

Inductive result (A : Type) : Type :=
| Ok (a : A)
| Raise (e : exn).

Arguments Ok {A} a.
Arguments Raise {A} e.

#[global] Instance result_ret : MRet result := fun A a => Ok a.
#[global] Instance result_bind : MBind result := fun A B f m =>
  match m with
  | Ok a => f a
  | Raise e => Raise e
  end.
#[global] Instance result_fmap : FMap result := fun A B f m =>
  match m with
  | Ok a => Ok (f a)
  | Raise e => Raise e
  end.

(** [for x in l: st = body(st, x)], stopping at the first exception. *)
Fixpoint foldM {S A : Type} (body : S -> A -> result S) (st : S) (l : list A)
  : result S :=
  match l with
  | [] => Ok st
  | x :: l' => st' ← body st x; foldM body st' l'
  end.

(** [l[i]] for a non-negative index. *)
Definition getitem {A : Type} (l : list A) (i : nat) : result A :=
  match l !! i with
  | Some x => Ok x
  | None => Raise IndexError
  end.

(** ** Python [str] methods *)

Module PyStr.

(** [s.startswith(p)] *)
Fixpoint startswith (p s : str) : bool :=
  match p, s with
  | [], _ => true
  | _ :: _, [] => false
  | a :: p', b :: s' => if Ascii.eqb a b then startswith p' s' else false
  end.

(** [s.find(sub)]: the lowest index where [sub] occurs, [None] for -1. *)
Fixpoint find (sub s : str) : option nat :=
  if startswith sub s then Some 0%nat
  else match s with
       | [] => None
       | _ :: s' => S <$> find sub s'
       end.

(** The integer that [s.find(sub)] returns. *)
Definition find_index (sub s : str) : Z :=
  match find sub s with
  | Some i => Z.of_nat i
  | None => -1
  end.

(** [s.split(sep)] for a non-empty separator: cut at the leftmost
    occurrence and go on after it.  The fuel is the length of [s], one more
    than the number of cuts a non-empty separator allows (every call of
    the program passes a non-empty literal). *)
Fixpoint split_fuel (fuel : nat) (sep s : str) : list str :=
  match find sep s with
  | None => [s]
  | Some i =>
      match fuel with
      | O => [s]
      | S fuel' =>
          take i s :: split_fuel fuel' sep (drop (i + length sep) s)
      end
  end.

Definition split (sep s : str) : list str :=
  split_fuel (length s) sep s.

(** [s.replace(old, new)] for a non-empty [old]: leftmost, non-overlapping
    occurrences, in one pass. *)
Fixpoint replace_fuel (fuel : nat) (old new s : str) : str :=
  match find old s with
  | None => s
  | Some i =>
      match fuel with
      | O => s
      | S fuel' =>
          take i s ++ new
            ++ replace_fuel fuel' old new (drop (i + length old) s)
      end
  end.

Definition replace (old new s : str) : str :=
  replace_fuel (length s) old new s.

(** [s.count(sub)] for a non-empty [sub]: non-overlapping occurrences. *)
Fixpoint count_fuel (fuel : nat) (sub s : str) : nat :=
  match find sub s with
  | None => O
  | Some i =>
      match fuel with
      | O => O
      | S fuel' => S (count_fuel fuel' sub (drop (i + length sub) s))
      end
  end.

Definition count (sub s : str) : Z :=
  Z.of_nat (count_fuel (length s) sub s).

(** [c.isdecimal()]: the digits 0 to 9, which are also what [\d] matches
    and what [int] reads. *)
Definition isdecimal (c : ascii) : bool :=
  (48 <=? nat_of_ascii c)%nat && (nat_of_ascii c <=? 57)%nat.

(** [c.isdigit()]: the decimal digits and the superscripts two, three and
    one (code points 178, 179 and 185). *)
Definition isdigit (c : ascii) : bool :=
  let n := nat_of_ascii c in
  isdecimal c || (n =? 178)%nat || (n =? 179)%nat || (n =? 185)%nat.

(** White space that [int] strips: tab, LF, VT, FF, CR, space, and the code
    points 133 (next line) and 160 (no-break space). *)
Definition isspace (c : ascii) : bool :=
  let n := nat_of_ascii c in
  ((9 <=? n)%nat && (n <=? 13)%nat) || (n =? 32)%nat
  || (n =? 133)%nat || (n =? 160)%nat.

End PyStr.

(** ** Python [int(s)] in base 10 *)

Module PyInt.

Definition digit_value (c : ascii) : Z := Z.of_nat (nat_of_ascii c) - 48.

Fixpoint lstrip (s : str) : str :=
  match s with
  | c :: s' => if PyStr.isspace c then lstrip s' else s
  | [] => []
  end.

Definition strip (s : str) : str := rev (lstrip (rev (lstrip s))).

(** Digits, with single underscores allowed between two digits.
    [after_digit] tells whether the previous character was a digit. *)
Fixpoint digits (acc : Z) (after_digit : bool) (s : str) : option Z :=
  match s with
  | [] => if after_digit then Some acc else None
  | c :: s' =>
      if PyStr.isdecimal c then digits (10 * acc + digit_value c) true s'
      else if Ascii.eqb c "_" then
        if after_digit then digits acc false s' else None
      else None
  end.

(** The default of [sys.get_int_max_str_digits()]. *)
Definition MAX_STR_DIGITS : Z := 4300.

(** The number after the sign: a text with more than [MAX_STR_DIGITS]
    digits is refused. *)
Definition number (r : str) : option Z :=
  if Z.of_nat (length (List.filter PyStr.isdecimal r)) <=? MAX_STR_DIGITS
  then digits 0 false r
  else None.

Definition parse (s : str) : option Z :=
  match strip s with
  | c :: r =>
      if Ascii.eqb c "+" then number r
      else if Ascii.eqb c "-" then Z.opp <$> number r
      else number (c :: r)
  | [] => None
  end.

(** [int(s)] *)
Definition int (s : str) : result Z :=
  match parse s with
  | Some n => Ok n
  | None => Raise ValueError
  end.

End PyInt.

(** ** [datetime.date], [datetime.timedelta] and [strptime(_, "%Y-%m-%d")] *)

Record date : Type := mkdate { year : Z; month : Z; day : Z }.

Module PyDate.

Definition MINYEAR : Z := 1.
Definition MAXYEAR : Z := 9999.
Definition MAXORDINAL : Z := 3652059.

Definition is_leap (y : Z) : bool :=
  (y mod 4 =? 0) && (negb (y mod 100 =? 0) || (y mod 400 =? 0)).

Definition days_before_year (y : Z) : Z :=
  let y := y - 1 in y * 365 + y / 4 - y / 100 + y / 400.

Definition DAYS_IN_MONTH (m : Z) : Z :=
  match m with
  | 1 => 31 | 2 => 28 | 3 => 31 | 4 => 30 | 5 => 31 | 6 => 30
  | 7 => 31 | 8 => 31 | 9 => 30 | 10 => 31 | 11 => 30 | 12 => 31
  | _ => -1
  end.

Definition DAYS_BEFORE_MONTH (m : Z) : Z :=
  match m with
  | 1 => 0 | 2 => 31 | 3 => 59 | 4 => 90 | 5 => 120 | 6 => 151
  | 7 => 181 | 8 => 212 | 9 => 243 | 10 => 273 | 11 => 304 | 12 => 334
  | _ => -1
  end.

Definition days_in_month (y m : Z) : Z :=
  if (m =? 2) && is_leap y then 29 else DAYS_IN_MONTH m.

Definition days_before_month (y m : Z) : Z :=
  DAYS_BEFORE_MONTH m + (if (2 <? m) && is_leap y then 1 else 0).

(** The check of the [date(year, month, day)] constructor. *)
Definition valid (d : date) : bool :=
  (MINYEAR <=? year d) && (year d <=? MAXYEAR)
  && (1 <=? month d) && (month d <=? 12)
  && (1 <=? day d) && (day d <=? days_in_month (year d) (month d)).

(** [d.toordinal()] *)
Definition toordinal (d : date) : Z :=
  days_before_year (year d) + days_before_month (year d) (month d) + day d.

Definition DI400Y : Z := 146097.
Definition DI100Y : Z := 36524.
Definition DI4Y : Z := 1461.

(** [date.fromordinal(n)] *)
Definition fromordinal (n : Z) : date :=
  let n := n - 1 in
  let n400 := n / DI400Y in
  let n := n mod DI400Y in
  let y := n400 * 400 + 1 in
  let n100 := n / DI100Y in
  let n := n mod DI100Y in
  let n4 := n / DI4Y in
  let n := n mod DI4Y in
  let n1 := n / 365 in
  let n := n mod 365 in
  let y := y + n100 * 100 + n4 * 4 + n1 in
  if (n1 =? 4) || (n100 =? 4) then mkdate (y - 1) 12 31
  else
    let leapyear := (n1 =? 3) && (negb (n4 =? 24) || (n100 =? 3)) in
    let m := Z.shiftr (n + 50) 5 in
    let preceding :=
      DAYS_BEFORE_MONTH m + (if (2 <? m) && leapyear then 1 else 0) in
    if n <? preceding then
      let m := m - 1 in
      let preceding :=
        preceding
        - (DAYS_IN_MONTH m + (if (m =? 2) && leapyear then 1 else 0)) in
      mkdate y m (n - preceding + 1)
    else mkdate y m (n - preceding + 1).

(** *** timedelta, as a number of microseconds *)

Definition timedelta : Type := Z.

Definition US_PER_SECOND : Z := 1000000.
Definition US_PER_DAY : Z := 86400 * US_PER_SECOND.
Definition MAX_DELTA_DAYS : Z := 999999999.

(** [td.days] *)
Definition days (td : timedelta) : Z := td / US_PER_DAY.

(** Every constructed timedelta is range-checked. *)
Definition mk_timedelta (us : Z) : result timedelta :=
  if (- MAX_DELTA_DAYS <=? us / US_PER_DAY)
     && (us / US_PER_DAY <=? MAX_DELTA_DAYS)
  then Ok us else Raise OverflowError.

(** [timedelta(seconds=s)] for an integer [s] *)
Definition timedelta_seconds (s : Z) : result timedelta :=
  mk_timedelta (s * US_PER_SECOND).

(** [a + b] *)
Definition td_add (a b : timedelta) : result timedelta :=
  mk_timedelta (a + b).

(** Division rounding half to even, for a positive divisor. *)
Definition divide_and_round (a b : Z) : Z :=
  let q := a / b in
  let r := a mod b in
  if (b <? 2 * r) || ((2 * r =? b) && Z.odd q) then q + 1 else q.

(** [td / n] for an integer [n] *)
Definition td_div (td : timedelta) (n : Z) : result timedelta :=
  mk_timedelta (divide_and_round td n).

(** [int(td.total_seconds() / 60 / 60)].  The program only builds whole
    numbers of seconds, within the timedelta range; there the two float
    divisions are exact up to the integer part, and [int] truncates
    towards zero. *)
Definition whole_hours (td : timedelta) : Z :=
  Z.quot (Z.quot td US_PER_SECOND) (60 * 60).

(** [d2 - d1] *)
Definition date_sub (d2 d1 : date) : result timedelta :=
  mk_timedelta ((toordinal d2 - toordinal d1) * US_PER_DAY).

(** [d + td] *)
Definition date_add (d : date) (td : timedelta) : result date :=
  let o := toordinal d + days td in
  if (0 <? o) && (o <=? MAXORDINAL) then Ok (fromordinal o)
  else Raise OverflowError.

(** *** [datetime.strptime(s, "%Y-%m-%d").date()] *)

Definition in_range (lo hi : ascii) (c : ascii) : bool :=
  (nat_of_ascii lo <=? nat_of_ascii c)%nat
  && (nat_of_ascii c <=? nat_of_ascii hi)%nat.

(** [%m] is the regular expression [1[0-2]|0[1-9]|[1-9]]; the result is
    the month and the rest of the text. *)
Definition match_month (s : str) : option (Z * str) :=
  match s with
  | c1 :: c2 :: r =>
      if Ascii.eqb c1 "1" && in_range "0" "2" c2
      then Some (10 + PyInt.digit_value c2, r)
      else if Ascii.eqb c1 "0" && in_range "1" "9" c2
      then Some (PyInt.digit_value c2, r)
      else if in_range "1" "9" c1
      then Some (PyInt.digit_value c1, c2 :: r)
      else None
  | [c1] =>
      if in_range "1" "9" c1 then Some (PyInt.digit_value c1, [])
      else None
  | [] => None
  end.

(** [%d] is [3[0-1]|[1-2]\d|0[1-9]|[1-9]| [1-9]]. *)
Definition match_day (s : str) : option (Z * str) :=
  match s with
  | c1 :: c2 :: r =>
      if Ascii.eqb c1 "3" && in_range "0" "1" c2
      then Some (30 + PyInt.digit_value c2, r)
      else if in_range "1" "2" c1 && PyStr.isdecimal c2
      then Some (10 * PyInt.digit_value c1 + PyInt.digit_value c2, r)
      else if Ascii.eqb c1 "0" && in_range "1" "9" c2
      then Some (PyInt.digit_value c2, r)
      else if in_range "1" "9" c1
      then Some (PyInt.digit_value c1, c2 :: r)
      else if Ascii.eqb c1 " " && in_range "1" "9" c2
      then Some (PyInt.digit_value c2, r)
      else None
  | [c1] =>
      if in_range "1" "9" c1 then Some (PyInt.digit_value c1, [])
      else None
  | [] => None
  end.

(** [%Y] is four digits. *)
Definition match_year (s : str) : option (Z * str) :=
  match s with
  | c1 :: c2 :: c3 :: c4 :: r =>
      if PyStr.isdecimal c1 && PyStr.isdecimal c2
         && PyStr.isdecimal c3 && PyStr.isdecimal c4
      then Some (1000 * PyInt.digit_value c1 + 100 * PyInt.digit_value c2
                 + 10 * PyInt.digit_value c3 + PyInt.digit_value c4, r)
      else None
  | _ => None
  end.

Definition match_dash (s : str) : option str :=
  match s with
  | c :: r => if Ascii.eqb c "-" then Some r else None
  | [] => None
  end.

(** The whole text must match, and the fields must form a date. *)
Definition strptime (s : str) : result date :=
  match
    '(y, r) ← match_year s;
    r ← match_dash r;
    '(m, r) ← match_month r;
    r ← match_dash r;
    '(d, r) ← match_day r;
    match r with
    | [] => Some (mkdate y m d)
    | _ :: _ => None
    end
  with
  | Some d => if valid d then Ok d else Raise ValueError
  | None => Raise ValueError
  end.

End PyDate.

(** ** The program *)

Import PyDate.

Definition CR : ascii := "013"%char.
Definition LF : ascii := "010"%char.

(** *** [__extract_row_data] (lines 364-385) *)

(** The body of its loop: drop the rest of the [<td ...>] tag, then every
    [</td>]. *)
Definition extract_cell (d : str) : str :=
  let td_end := PyStr.find_index ">" d in
  let d := drop (Z.to_nat (td_end + 1)) d in
  PyStr.replace "</td>" "" d.

Definition __extract_row_data (row : str) : list str :=
  let data := PyStr.split "<td" row in
  let data := map extract_cell data in
  drop 1 data.

(** *** [__extract_html_table] (lines 326-361) *)

(** "Clean table text", lines 341-344. *)
Definition clean_table_text (html_text : str) : str :=
  let html_text := PyStr.replace " " "" html_text in
  let html_text := PyStr.replace [CR] "" html_text in
  let html_text := PyStr.replace [LF] "" html_text in
  PyStr.replace "<trstyle" "" html_text.

(** "Get the table with metadata", lines 347-348. *)
Definition table_with_metadata (html_text : str) : result str :=
  table ← getitem (PyStr.split "<table>" html_text) 1;
  getitem (PyStr.split "</table>" table) 0.

(** The body of the loop over the rows, lines 356-359. *)
Definition extract_row (r : str) : result (list str) :=
  let tr_end := PyStr.find_index ">" r in
  let r := drop (Z.to_nat (tr_end + 1)) r in
  r ← getitem (PyStr.split "</tr>" r) 0;
  Ok (__extract_row_data r).

Definition __extract_html_table (html_text : str) : result (list (list str)) :=
  let html_text := clean_table_text html_text in
  table ← table_with_metadata html_text;
  let table := PyStr.split "<tr" table in
  let table := drop 1 table in
  mapM extract_row table.

(** *** [__str_to_int] (lines 388-411) *)

Definition __str_to_int (s : str) : result Z :=
  let integer_string :=
    fold_left (fun acc c => if PyStr.isdigit c then acc ++ [c] else acc) s []
  in
  PyInt.int integer_string.

(** *** [__extract_date] (lines 414-445) *)

Definition __extract_date (date_str : str) : result date :=
  let dash_count := PyStr.count "-" date_str in
  if dash_count =? 2 then strptime date_str
  else if dash_count =? 5 then
    date_1 ← strptime (take 10 date_str);
    date_2 ← strptime (take (21 - 11) (drop 11 date_str));
    span ← date_sub date_2 date_1;
    half ← td_div span 2;
    date_add date_1 half
  else Raise UnboundLocalError.

(** *** The sections of the report (lines 102, 152-153, 187-188) *)

(** [report.split(opening)[1].split(closing)[0]] *)
Definition section_between (opening closing report : str) : result str :=
  rest ← getitem (PyStr.split opening report) 1;
  getitem (PyStr.split closing rest) 0.

Definition battery_info_section : str -> result str :=
  section_between "Installed batteries" "Recent usage".

Definition capacity_info_section : str -> result str :=
  section_between "Battery capacity history" "Battery life estimates".

Definition usage_info_section : str -> result str :=
  section_between "Usage history" "Battery capacity history".

(** *** [get_battery_information] (lines 79-136) *)

Record information : Type := mkinformation {
  battery_count : Z;
  names : list str;
  manufacturers : list str;
  serials : list str;
  chemistries : list str;
  design_capacities : list Z;
  actual_capacities : list Z;
  cycles : list Z
}.

(** [l = table[k][1:]] followed by [l[i] = __str_to_int(l[i])] for every
    index in turn. *)
Definition int_column (table : list (list str)) (k : nat) : result (list Z) :=
  r ← getitem table k;
  mapM __str_to_int (drop 1 r).

(** Lines 106-134, on the extracted table. *)
Definition information_of_table (table : list (list str))
  : result information :=
  header ← getitem table 0;
  let battery_count := Z.of_nat (length header) - 1 in
  names ← drop 1 <$> getitem table 1;
  manufacturers ← drop 1 <$> getitem table 2;
  serials ← drop 1 <$> getitem table 3;
  chemistries ← drop 1 <$> getitem table 4;
  design_capacities ← int_column table 5;
  actual_capacities ← int_column table 6;
  cycles ← int_column table 7;
  Ok (mkinformation battery_count names manufacturers serials chemistries
        design_capacities actual_capacities cycles).

Definition get_battery_information (report : str) : result information :=
  battery_info ← battery_info_section report;
  table ← __extract_html_table battery_info;
  information_of_table table.

(** *** [get_capacity_data] (lines 139-170) *)

Definition capacity_row (acc : list date * list Z) (r : list str)
  : result (list date * list Z) :=
  let '(dates, capacities) := acc in
  datetime ← getitem r 0 ≫= __extract_date;
  capacity ← getitem r 1 ≫= __str_to_int;
  Ok (dates ++ [datetime], capacities ++ [capacity]).

Definition capacity_of_table (table : list (list str))
  : result (list date * list Z) :=
  foldM capacity_row ([], []) (drop 1 table).

Definition get_capacity_data (report : str) : result (list date * list Z) :=
  capacity_info ← capacity_info_section report;
  table ← __extract_html_table capacity_info;
  capacity_of_table table.

(** *** [get_usage_data] (lines 173-218) *)

Record usage_state : Type := mkusage {
  dates : list date;
  usage_hours : list Z;
  cumulative_usage : timedelta
}.

(** Lines 201-204: the active time of a cell, in seconds. *)
Definition active_seconds_of (cell : str) : result Z :=
  let split_time := PyStr.split ":" cell in
  active_hours ← getitem split_time 0 ≫= PyInt.int;
  minutes ← getitem split_time 1 ≫= PyInt.int;
  let active_minutes := minutes + active_hours * 60 in
  seconds ← getitem split_time 2 ≫= PyInt.int;
  Ok (seconds + active_minutes * 60).

(** The body of the loop, lines 199-214. *)
Definition usage_row (st : usage_state) (r : list str) : result usage_state :=
  cell ← getitem r 1;
  if (1 <? length cell)%nat then
    active_seconds ← active_seconds_of cell;
    if active_seconds <=? 7 * 24 * 60 * 60 then
      delta ← timedelta_seconds active_seconds;
      cumulative ← td_add (cumulative_usage st) delta;
      let hours := usage_hours st ++ [whole_hours cumulative] in
      d ← getitem r 0 ≫= __extract_date;
      Ok (mkusage (dates st ++ [d]) hours cumulative)
    else Ok st
  else Ok st.

Definition usage_init : usage_state := mkusage [] [] 0.

Definition usage_of_table (table : list (list str))
  : result (list date * list Z) :=
  st ← foldM usage_row usage_init (drop 2 table);
  Ok (dates st, usage_hours st).

Definition get_usage_data (report : str) : result (list date * list Z) :=
  usage_info ← usage_info_section report;
  table ← __extract_html_table usage_info;
  usage_of_table table.

(** * Definitions that follow the wording of the specification *)

(** The base-10 value of a text of decimal digits. *)
Definition decimal_value (ds : str) : Z :=
  fold_left (fun n c => 10 * n + PyInt.digit_value c) ds 0.

(** "Concatenate every character that is a decimal digit, in original order,
    discarding all other characters, then parse as a base-10 non-negative
    integer; fails if zero digits are present." *)
Definition digits_to_integer_spec (text : str) : result Z :=
  match List.filter PyStr.isdecimal text with
  | [] => Raise ValueError
  | ds => Ok (decimal_value ds)
  end.

(** The number of ['-'] separator characters of a text. *)
Definition separator_count (text : str) : Z :=
  Z.of_nat (length (List.filter (Ascii.eqb "-") text)).

(** "date1 + (date2 - date1)/2", rounding down when the span in days is
    odd. *)
Definition midpoint_spec (d1 d2 : date) : date :=
  fromordinal (toordinal d1 + (toordinal d2 - toordinal d1) / 2).

(** "First 10 characters are date 1, characters 11-20 are date 2, with one
    boundary character at index 10 that is ignored; parse both, return the
    midpoint date." *)
Definition range_date_spec (text : str) : result date :=
  match strptime (take 10 text), strptime (take 10 (drop 11 text)) with
  | Ok d1, Ok d2 => Ok (midpoint_spec d1 d2)
  | Raise e, _ => Raise e
  | Ok _, Raise e => Raise e
  end.

(** The text before the first occurrence of [sep], the whole text when
    there is none: what [s.split(sep)[0]] keeps. *)
Definition before_first (sep s : str) : str :=
  match PyStr.find sep s with
  | Some i => take i s
  | None => s
  end.

(** [agree a b]: one of the two texts is a prefix of the other. *)
Fixpoint agree (a b : str) : bool :=
  match a, b with
  | x :: a', y :: b' => Ascii.eqb x y && agree a' b'
  | _, _ => true
  end.

(** No occurrence of [q] can start strictly inside an occurrence of [p]. *)
Definition no_overlap (p q : str) : bool :=
  forallb (fun d => negb (agree (drop d p) q)) (seq 1 (length p - 1)).

(** Neither space, carriage return nor line feed. *)
Definition no_whitespace (c : ascii) : Prop :=
  c <> " "%char /\ c <> CR /\ c <> LF.

(** Where a section lies: [i] is the first occurrence of the opening marker
    in the document and [j] the first occurrence of the closing marker in
    the text after it, no further opening marker coming before [j]. *)
Definition section_bounds (opening closing document : str)
  : option (nat * nat) :=
  i ← PyStr.find opening document;
  let rest := drop (i + length opening) document in
  j ← PyStr.find closing rest;
  match PyStr.find opening rest with
  | Some k => if (j <? k)%nat then Some (i, j) else None
  | None => Some (i, j)
  end.

(** [section] is the text between the first [opening] of the document and
    the first [closing] after it. *)
Definition is_between (opening closing document section : str) : Prop :=
  exists pre post,
    document = pre ++ opening ++ section ++ closing ++ post
    /\ PyStr.find opening document = Some (length pre)
    /\ PyStr.find closing (section ++ closing ++ post)
       = Some (length section).

(** "Each boundary pair is located independently via first-occurrence text
    search on the whole document": the text from the end of the first
    [opening] to the start of the first [closing]. *)
Definition text_between_spec (opening closing document : str) : option str :=
  i ← PyStr.find opening document;
  j ← PyStr.find closing document;
  Some (take (j - (i + length opening)) (drop (i + length opening) document)).

(** The cells of one row fragment: what [extract_row] computes. *)
Definition row_cells (r : str) : list str :=
  __extract_row_data
    (before_first "</tr>" (drop (Z.to_nat (PyStr.find_index ">" r + 1)) r)).

(** * A small report *)

(** A report in the layout of [powercfg /batteryreport], cut down to three
    batteries, two capacity rows and five usage rows, one of them with the
    week-long active time that Windows sometimes reports. *)
Definition sample_report : str :=
  "<h1>Battery report</h1>
<h2>Installed batteries</h2>
<table>
<colgroup><col/></colgroup>
<thead><tr><td> </td><td>BATTERY 1</td><td>BATTERY 2</td><td>BATTERY 3</td></tr></thead>
<tr><td><span class=label>NAME</span></td><td>DELL 7VTMN</td><td>AUX 01</td><td>AUX 02</td></tr>
<tr><td>MANUFACTURER</td><td>SMP</td><td>LGC</td><td>LGC</td></tr>
<tr><td>SERIAL NUMBER</td><td>1082</td><td>77</td><td>78</td></tr>
<tr><td>CHEMISTRY</td><td>Li Ion</td><td>LiP</td><td>LiP</td></tr>
<tr><td>DESIGN CAPACITY</td><td>56,000 mWh</td><td>1.109 mWh</td><td>0993 mWh</td></tr>
<tr style=height:0.4em;></tr>
<tr><td>FULL CHARGE CAPACITY</td><td>48,123 mWh</td><td>1.000 mWh</td><td>900 mWh</td></tr>
<tr><td>CYCLE COUNT</td><td>312</td><td>4</td><td>-0</td></tr>
</table>
<h2>Recent usage</h2>
<h2>Usage history</h2>
<table>
<tr><td>PERIOD</td><td>BATTERY DURATION</td></tr>
<tr><td> </td><td>ACTIVE</td></tr>
<tr class=even><td class=dateTime>2018-01-05 - 2018-01-07</td><td>1:00:00</td></tr>
<tr class=odd><td class=dateTime>2018-01-08</td><td>200:00:00</td></tr>
<tr class=even><td class=dateTime>2018-01-09</td><td>-</td></tr>
<tr class=odd><td class=dateTime>2018-01-10</td><td>2:00:00</td></tr>
<tr class=even><td class=dateTime>2018-01-11</td><td>0:30:00</td></tr>
</table>
<h2>Battery capacity history</h2>
<table>
<tr><td>PERIOD</td><td>FULL CHARGE CAPACITY</td></tr>
<tr><td>2018-01-05 - 2018-01-07</td><td>48,500 mWh</td></tr>
<tr><td>2018-01-08</td><td>48,123 mWh</td></tr>
</table>
<h2>Battery life estimates</h2>".

(** A document that names its first section twice. *)
Definition repeated_heading_report : str :=
  "Installed batteries|a|Installed batteries|b|Recent usage|Usage history|u|Battery capacity history|c|Battery life estimates".

(** * The usage rows, as the specification describes them *)

(** "Parse column 1 as H:MM:SS: split on ':'": the three integer fields. *)
Definition time_fields (cell : str) : option (Z * Z * Z) :=
  let parts := PyStr.split ":" cell in
  h ← parts !! 0%nat ≫= PyInt.parse;
  m ← parts !! 1%nat ≫= PyInt.parse;
  s ← parts !! 2%nat ≫= PyInt.parse;
  Some (h, m, s).

(** "Total seconds = ((hours x 60 + minutes) x 60 + seconds)". *)
Definition total_seconds (hms : Z * Z * Z) : Z :=
  let '(h, m, s) := hms in (h * 60 + m) * 60 + s.

(** The fields of a kept row: column 1 is longer than one character, reads
    as three integers, and is at most seven days long. *)
Definition kept_fields (r : list str) : option (Z * Z * Z) :=
  cell ← r !! 1%nat;
  if (1 <? length cell)%nat then
    hms ← time_fields cell;
    if total_seconds hms <=? 604800 then Some hms else None
  else None.

Definition kept_seconds (r : list str) : option Z :=
  total_seconds <$> kept_fields r.

Definition is_kept (r : list str) : bool :=
  match kept_fields r with
  | Some _ => true
  | None => false
  end.

(** The running sums [acc + x1], [acc + x1 + x2], ... *)
Fixpoint running_totals (acc : Z) (l : list Z) : list Z :=
  match l with
  | [] => []
  | x :: l' => (acc + x) :: running_totals (acc + x) l'
  end.

(** The kept fields of a row, if any, are not negative. *)
Definition nonnegative_fields (r : list str) : bool :=
  match kept_fields r with
  | Some (h, m, s) => (0 <=? h) && (0 <=? m) && (0 <=? s)
  | None => true
  end.

(** Each entry is at least the one before it. *)
Fixpoint nondecreasing (l : list Z) : Prop :=
  match l with
  | a :: l' =>
      match l' with
      | b :: _ => a <= b
      | [] => True
      end /\ nondecreasing l'
  | [] => True
  end.

(** The date of a row is the date that column 0 reads as. *)
Definition row_date (r : list str) (d : date) : Prop :=
  exists cell, r !! 0%nat = Some cell /\ __extract_date cell = Ok d.

(** The usage-history table of [sample_report], as tokenized. *)
Definition sample_usage_table : list (list str) :=
  [ ["PERIOD" : str; "BATTERYDURATION" : str];
    ["" : str; "ACTIVE" : str];
    ["2018-01-05-2018-01-07" : str; "1:00:00" : str];
    ["2018-01-08" : str; "200:00:00" : str];
    ["2018-01-09" : str; "-" : str];
    ["2018-01-10" : str; "2:00:00" : str];
    ["2018-01-11" : str; "0:30:00" : str] ].

(** A report whose only usage row has a negative active time. *)
Definition negative_time_report : str :=
  "<h2>Usage history</h2><table><tr><td>PERIOD</td><td>ACTIVE</td></tr><tr><td></td><td></td></tr><tr><td>2021-06-20</td><td>-1:30:00</td></tr></table><h2>Battery capacity history</h2>".

(** * Definitions for the further properties *)

(** The capacity of a row is the integer that column 1 reads as. *)
Definition row_capacity (r : list str) (c : Z) : Prop :=
  exists cell, r !! 1%nat = Some cell /\ __str_to_int cell = Ok c.

(** The text has at least one character that [str.isdigit] accepts. *)
Definition has_digit (cell : str) : bool := existsb PyStr.isdigit cell.

(** The text reads as an integer: it has a digit, every character that
    [str.isdigit] accepts is a decimal digit, and there are at most
    [PyInt.MAX_STR_DIGITS] of them. *)
Definition converts (cell : str) : bool :=
  has_digit cell
  && forallb PyStr.isdecimal (List.filter PyStr.isdigit cell)
  && (Z.of_nat (length (List.filter PyStr.isdigit cell))
      <=? PyInt.MAX_STR_DIGITS).

(** The character of the last decimal digit of [k]. *)
Definition digit_char (k : Z) : ascii := ascii_of_nat (Z.to_nat (48 + k mod 10)).

Definition two_digits (n : Z) : str := [digit_char (n / 10); digit_char n].

Definition four_digits (n : Z) : str :=
  [digit_char (n / 1000); digit_char (n / 100); digit_char (n / 10);
   digit_char n].

(** The text [YYYY-MM-DD] of a date, as the report writes it. *)
Definition isoformat (d : date) : str :=
  four_digits (year d) ++ "-" ++ two_digits (month d) ++ "-"
    ++ two_digits (day d).

(** The month and day of the [n]-th day (from 0) of a year: the last steps
    of [fromordinal]. *)
Definition month_day_of (n : Z) (leapyear : bool) : Z * Z :=
  let m := Z.shiftr (n + 50) 5 in
  let preceding :=
    DAYS_BEFORE_MONTH m + (if (2 <? m) && leapyear then 1 else 0) in
  if n <? preceding then
    let m := m - 1 in
    let preceding :=
      preceding - (DAYS_IN_MONTH m + (if (m =? 2) && leapyear then 1 else 0))
    in
    (m, n - preceding + 1)
  else (m, n - preceding + 1).

(** [month_day_of] is right for the day [n] of a year. *)
Definition month_day_ok (leapyear : bool) (n : Z) : bool :=
  let '(m, d) := month_day_of n leapyear in
  (1 <=? m) && (m <=? 12) && (1 <=? d)
  && (d <=? DAYS_IN_MONTH m + (if (m =? 2) && leapyear then 1 else 0))
  && (DAYS_BEFORE_MONTH m + (if (2 <? m) && leapyear then 1 else 0) + d
      =? n + 1).

(** [test] holds for the [k] integers from [n] on. *)
Fixpoint holds_from (test : Z -> bool) (k : nat) (n : Z) : bool :=
  match k with
  | O => true
  | S k' => test n && holds_from test k' (n + 1)
  end.

(** * Writing a table *)

(** The markup of a cell, of a row and of a table, without attributes and
    without white space. *)
Definition render_cell (c : str) : str := "<td>" ++ c ++ "</td>".

Definition render_row (r : list str) : str :=
  "<tr>" ++ concat (map render_cell r) ++ "</tr>".

Definition render_table (t : list (list str)) : str :=
  "<table>" ++ concat (map render_row t) ++ "</table>".

(** A cell text that the tokenizer gives back as it is: no ['<'] and none
    of the characters that the clean-up removes. *)
Definition plain_cell (c : str) : Prop :=
  Forall (fun x => x <> "<"%char /\ no_whitespace x) c.

(** No occurrence of [sep] starts inside [u], whatever follows [u]. *)
Definition passes (sep u : str) : Prop :=
  forall rest,
    PyStr.find sep (u ++ rest)
    = (fun i => (length u + i)%nat) <$> PyStr.find sep rest.

(** [sep] agrees with no suffix of the marker [m]. *)
Fixpoint never_inside (m sep : str) : bool :=
  match m with
  | [] => true
  | _ :: m' => negb (agree m sep) && never_inside m' sep
  end.

(** What follows ["<td"] in the markup of a cell, and ["<tr"] in the markup
    of a row. *)
Definition cell_piece (c : str) : str := ">" ++ c ++ "</td>".

Definition row_piece (r : list str) : str :=
  ">" ++ concat (map render_cell r) ++ "</tr>".

(** The characters that the clean-up removes, and a text without them. *)
Definition is_removed (x : ascii) : bool :=
  Ascii.eqb " " x || Ascii.eqb CR x || Ascii.eqb LF x.

Definition without_whitespace (s : str) : str :=
  List.filter (fun x => negb (is_removed x)) s.

(** A report written with [render_table], with headings around the usage
    table. *)
Definition written_usage_report : str :=
  "<h1>Battery report</h1> <h2>Usage history</h2> "
    ++ render_table
         [ ["PERIOD" : str; "ACTIVE" : str]; []; ["2018-01-10" : str; "2:00:00" : str] ]
    ++ " <h2>Battery capacity history</h2>".

(** * Checks of the embedding on concrete inputs *)

Example split_ex1 :
  PyStr.split "<t>" "a<t>b<t>c" = ["a" : str; "b" : str; "c" : str].
Proof. reflexivity. Qed.
Example split_ex2 : PyStr.split "aa" "aaa" = ["" : str; "a" : str].
Proof. reflexivity. Qed.
Example split_ex3 : PyStr.split "x" "x" = ["" : str; "" : str].
Proof. reflexivity. Qed.
Example split_ex4 : PyStr.split "x" "" = ["" : str].
Proof. reflexivity. Qed.
Example replace_ex1 : PyStr.replace "aa" "b" "aaaa" = ("bb" : str).
Proof. reflexivity. Qed.
Example find_ex1 : PyStr.find_index "c" "abc" = 2.
Proof. reflexivity. Qed.
Example count_ex1 : PyStr.count "-" "2018-01-05-2018-01-07" = 5.
Proof. reflexivity. Qed.
Example int_ex1 : PyInt.int "0993" = Ok 993.
Proof. reflexivity. Qed.
Example int_ex2 : PyInt.int "-5" = Ok (-5).
Proof. reflexivity. Qed.
Example int_ex3 : PyInt.int "1_0" = Ok 10.
Proof. reflexivity. Qed.
Example int_ex4 : PyInt.int "1__0" = Raise ValueError.
Proof. reflexivity. Qed.
Example int_ex5 : PyInt.int "" = Raise ValueError.
Proof. reflexivity. Qed.
Example strptime_ex1 : strptime "2018-1-5" = Ok (mkdate 2018 1 5).
Proof. reflexivity. Qed.
Example strptime_ex2 : strptime "2018-02-29" = Raise ValueError.
Proof. reflexivity. Qed.
Example strptime_ex3 : strptime "2020-02-29" = Ok (mkdate 2020 2 29).
Proof. reflexivity. Qed.
Example strptime_ex4 : strptime "2018-01-32" = Raise ValueError.
Proof. reflexivity. Qed.
Example ordinal_ex1 : toordinal (mkdate 9999 12 31) = MAXORDINAL.
Proof. reflexivity. Qed.
Example ordinal_ex2 : fromordinal 736699 = mkdate 2018 1 5.
Proof. reflexivity. Qed.
Example extract_date_single :
  __extract_date "2021-06-20" = Ok (mkdate 2021 6 20).
Proof. vm_compute. reflexivity. Qed.

(** * Facts about the [str] methods *)

Section str_facts.

Import PyStr.

Lemma startswith_app (p r : str) : startswith p (p ++ r) = true.
Proof.
  induction p as [|a p IH]; simpl; [done|].
  by rewrite Ascii.eqb_refl.
Qed.

Lemma startswith_inv (p s : str) :
  startswith p s = true -> s = p ++ drop (length p) s.
Proof.
  revert s. induction p as [|a p IH]; intros [|b s]; simpl; try done.
  destruct (Ascii.eqb_spec a b) as [->|]; [|done].
  intros H. f_equal. by apply IH.
Qed.

Lemma startswith_length (p s : str) :
  startswith p s = true -> (length p <= length s)%nat.
Proof.
  intros H. rewrite (startswith_inv _ _ H), length_app. lia.
Qed.

Lemma find_unfold (sub s : str) :
  find sub s =
    if startswith sub s then Some 0%nat
    else match s with
         | [] => None
         | _ :: s' => S <$> find sub s'
         end.
Proof. by destruct s. Qed.

(** [find] returns the first position where [sub] occurs. *)
Lemma find_Some (sub s : str) (i : nat) :
  find sub s = Some i ->
  startswith sub (drop i s) = true
  /\ (i + length sub <= length s)%nat
  /\ forall j, (j < i)%nat -> startswith sub (drop j s) = false.
Proof.
  revert i. induction s as [|c s IH]; intros i; rewrite find_unfold.
  - destruct (startswith sub []) eqn:E; [|done].
    intros [= <-]. split; [done|]. split; [|lia].
    apply startswith_length in E. simpl in *. lia.
  - destruct (startswith sub (c :: s)) eqn:E.
    + intros [= <-]. split; [done|]. split; [|lia].
      apply startswith_length in E. simpl in *. lia.
    + destruct (find sub s) as [k|] eqn:F; [|done].
      intros [= <-]. destruct (IH k eq_refl) as (H1 & H2 & H3).
      split; [done|]. split; [simpl; lia|].
      intros [|j] Hj; [done|]. simpl. apply H3. lia.
Qed.

Lemma find_None (sub s : str) (j : nat) :
  find sub s = None -> startswith sub (drop j s) = false.
Proof.
  revert j. induction s as [|c s IH]; intros j; rewrite find_unfold.
  - destruct (startswith sub []) eqn:E; [done|].
    intros _. by rewrite drop_nil.
  - destruct (startswith sub (c :: s)) eqn:E; [done|].
    destruct (find sub s) eqn:F; [done|]. intros _.
    destruct j as [|j]; [done|]. simpl. by apply IH.
Qed.

Lemma find_first (sub s : str) (i : nat) :
  startswith sub (drop i s) = true ->
  (i <= length s)%nat ->
  (forall j, (j < i)%nat -> startswith sub (drop j s) = false) ->
  find sub s = Some i.
Proof.
  revert i. induction s as [|c s IH]; intros i Hi Hlen Hlt.
  - assert (i = 0)%nat as -> by (simpl in Hlen; lia).
    rewrite find_unfold. simpl in Hi. by rewrite Hi.
  - rewrite find_unfold. destruct i as [|i].
    + simpl in Hi. by rewrite Hi.
    + pose proof (Hlt 0%nat ltac:(lia)) as H0. simpl in H0. rewrite H0.
      rewrite (IH i); [done|done|simpl in Hlen; lia|].
      intros j Hj. apply (Hlt (S j)). lia.
Qed.

Lemma find_None_iff (sub s : str) :
  find sub s = None <-> forall j, startswith sub (drop j s) = false.
Proof.
  split; [intros H j; by apply find_None|].
  intros H. destruct (find sub s) as [i|] eqn:F; [|done].
  apply find_Some in F as (F & _). by rewrite H in F.
Qed.

Lemma find_Some_split (sub s : str) (i : nat) :
  find sub s = Some i ->
  s = take i s ++ sub ++ drop (i + length sub) s.
Proof.
  intros (H & _ & _)%find_Some.
  apply startswith_inv in H. rewrite drop_drop in H.
  rewrite <- H. by rewrite take_drop.
Qed.

Lemma split_fuel_S (n : nat) (sep s : str) :
  split_fuel (S n) sep s =
    match find sep s with
    | None => [s]
    | Some i => take i s :: split_fuel n sep (drop (i + length sep) s)
    end.
Proof. done. Qed.

Lemma replace_fuel_S (n : nat) (old new s : str) :
  replace_fuel (S n) old new s =
    match find old s with
    | None => s
    | Some i =>
        take i s ++ new ++ replace_fuel n old new (drop (i + length old) s)
    end.
Proof. done. Qed.

Lemma count_fuel_S (n : nat) (sub s : str) :
  count_fuel (S n) sub s =
    match find sub s with
    | None => O
    | Some i => S (count_fuel n sub (drop (i + length sub) s))
    end.
Proof. done. Qed.

(** Enough fuel: with a non-empty separator every cut shortens the text. *)
Lemma split_fuel_enough (sep : str) (n m : nat) (s : str) :
  sep <> [] -> (length s <= n)%nat -> (length s <= m)%nat ->
  split_fuel n sep s = split_fuel m sep s.
Proof.
  intros Hsep. revert m s.
  induction n as [|n IH]; intros m s Hn Hm;
    destruct m as [|m]; simpl;
    destruct (find sep s) as [i|] eqn:F; try done;
    pose proof (find_Some _ _ _ F) as (_ & Hlen & _);
    destruct sep; try done; simpl in *; try lia.
  f_equal. apply IH; rewrite length_drop; lia.
Qed.

Lemma split_unfold (sep s : str) :
  sep <> [] ->
  split sep s =
    match find sep s with
    | None => [s]
    | Some i => take i s :: split sep (drop (i + length sep) s)
    end.
Proof.
  intros Hsep. unfold split.
  destruct (find sep s) as [i|] eqn:F.
  - pose proof (find_Some _ _ _ F) as (_ & Hlen & _).
    destruct s as [|c s]; [destruct sep; simpl in *; [done|lia]|].
    simpl length. rewrite split_fuel_S, F. f_equal.
    apply split_fuel_enough; [done| |done].
    rewrite length_drop. destruct sep; [done|]. simpl in *. lia.
  - destruct (length s); simpl; by rewrite F.
Qed.

Lemma replace_fuel_enough (old new : str) (n m : nat) (s : str) :
  old <> [] -> (length s <= n)%nat -> (length s <= m)%nat ->
  replace_fuel n old new s = replace_fuel m old new s.
Proof.
  intros Hold. revert m s.
  induction n as [|n IH]; intros m s Hn Hm;
    destruct m as [|m]; simpl;
    destruct (find old s) as [i|] eqn:F; try done;
    pose proof (find_Some _ _ _ F) as (_ & Hlen & _);
    destruct old; try done; simpl in *; try lia.
  do 2 f_equal. apply IH; rewrite length_drop; lia.
Qed.

Lemma replace_unfold (old new s : str) :
  old <> [] ->
  replace old new s =
    match find old s with
    | None => s
    | Some i => take i s ++ new ++ replace old new (drop (i + length old) s)
    end.
Proof.
  intros Hold. unfold replace.
  destruct (find old s) as [i|] eqn:F.
  - pose proof (find_Some _ _ _ F) as (_ & Hlen & _).
    destruct s as [|c s]; [destruct old; simpl in *; [done|lia]|].
    simpl length. rewrite replace_fuel_S, F. do 2 f_equal.
    apply replace_fuel_enough; [done| |done].
    rewrite length_drop. destruct old; [done|]. simpl in *. lia.
  - destruct (length s); simpl; by rewrite F.
Qed.

Lemma count_fuel_enough (sub : str) (n m : nat) (s : str) :
  sub <> [] -> (length s <= n)%nat -> (length s <= m)%nat ->
  count_fuel n sub s = count_fuel m sub s.
Proof.
  intros Hsub. revert m s.
  induction n as [|n IH]; intros m s Hn Hm;
    destruct m as [|m]; simpl;
    destruct (find sub s) as [i|] eqn:F; try done;
    pose proof (find_Some _ _ _ F) as (_ & Hlen & _);
    destruct sub; try done; simpl in *; try lia.
  f_equal. apply IH; rewrite length_drop; lia.
Qed.

Lemma count_fuel_unfold (sub s : str) :
  sub <> [] ->
  count_fuel (length s) sub s =
    match find sub s with
    | None => O
    | Some i =>
        S (count_fuel (length (drop (i + length sub) s)) sub
             (drop (i + length sub) s))
    end.
Proof.
  intros Hsub.
  destruct (find sub s) as [i|] eqn:F.
  - pose proof (find_Some _ _ _ F) as (_ & Hlen & _).
    destruct s as [|c s]; [destruct sub; simpl in *; [done|lia]|].
    simpl length at 1. rewrite count_fuel_S, F. f_equal.
    apply count_fuel_enough; [done| |done].
    rewrite length_drop. destruct sub; [done|]. simpl in *. lia.
  - destruct (length s); simpl; by rewrite F.
Qed.

End str_facts.

(** * The scalar extractors *)

Section int_facts.

Import PyStr PyInt.

Lemma isdecimal_range (c : ascii) :
  isdecimal c = true <-> (48 <= nat_of_ascii c <= 57)%nat.
Proof.
  unfold isdecimal. rewrite andb_true_iff, !Nat.leb_le. lia.
Qed.

Lemma isdigit_cases (c : ascii) :
  isdigit c = true <->
  isdecimal c = true
  \/ nat_of_ascii c = 178%nat \/ nat_of_ascii c = 179%nat
  \/ nat_of_ascii c = 185%nat.
Proof.
  unfold isdigit. cbv zeta. rewrite !orb_true_iff, !Nat.eqb_eq. tauto.
Qed.

Lemma isdecimal_isdigit (c : ascii) : isdecimal c = true -> isdigit c = true.
Proof. intros H. apply isdigit_cases. by left. Qed.

Lemma isdigit_not_space (c : ascii) : isdigit c = true -> isspace c = false.
Proof.
  rewrite isdigit_cases, isdecimal_range. intros H. unfold isspace.
  cbv zeta. rewrite !orb_false_iff, andb_false_iff, !Nat.eqb_neq, !Nat.leb_gt.
  lia.
Qed.

Lemma isdecimal_not_char (c d : ascii) :
  isdecimal c = true -> isdecimal d = false -> Ascii.eqb c d = false.
Proof.
  intros Hc Hd. destruct (Ascii.eqb_spec c d) as [->|]; congruence.
Qed.

Lemma isdigit_not_char (c d : ascii) :
  isdigit c = true -> isdigit d = false -> Ascii.eqb c d = false.
Proof.
  intros Hc Hd. destruct (Ascii.eqb_spec c d) as [->|]; congruence.
Qed.

Lemma digit_value_range (c : ascii) :
  isdecimal c = true -> 0 <= digit_value c <= 9.
Proof. intros H%isdecimal_range. unfold digit_value. lia. Qed.

Lemma lstrip_id (c : ascii) (s : str) :
  isspace c = false -> lstrip (c :: s) = c :: s.
Proof. intros H. simpl. by rewrite H. Qed.

Lemma strip_digits (ds : str) :
  Forall (fun c => isdigit c = true) ds -> strip ds = ds.
Proof.
  intros Hds. unfold strip.
  assert (forall l : str,
             Forall (fun c => isdigit c = true) l -> lstrip l = l) as Hl.
  { intros [|c l] Hl; [done|]. apply lstrip_id, isdigit_not_space.
    by inversion Hl. }
  rewrite (Hl ds Hds), Hl, rev_involutive; [done|].
  by apply Forall_rev.
Qed.

Lemma digits_all (ds : str) (acc : Z) (b : bool) :
  Forall (fun c => isdecimal c = true) ds ->
  ds <> [] \/ b = true ->
  digits acc b ds
  = Some (fold_left (fun n c => 10 * n + digit_value c) ds acc).
Proof.
  intros Hds. revert acc b.
  induction Hds as [|c ds Hc Hds IH]; intros acc b Hne; simpl.
  - destruct Hne as [ ? | -> ]; done.
  - rewrite Hc. apply IH. by right.
Qed.

(** A digit that is not a decimal digit stops [int]. *)
Lemma digits_stop (ds : str) (acc : Z) (b : bool) :
  Forall (fun c => isdigit c = true) ds ->
  forallb isdecimal ds = false -> digits acc b ds = None.
Proof.
  intros Hds. revert acc b.
  induction Hds as [|c ds Hc Hds IH]; intros acc b; simpl; [done|].
  destruct (isdecimal c) eqn:E; simpl; [apply IH|].
  intros _. by rewrite (isdigit_not_char c "_").
Qed.

Lemma filter_id (f : ascii -> bool) (ds : str) :
  forallb f ds = true -> List.filter f ds = ds.
Proof.
  induction ds as [|c ds IH]; simpl; [done|].
  intros [-> H]%andb_true_iff. by rewrite IH.
Qed.

(** [int] on a text made of [isdigit] characters only. *)
Lemma parse_digits (ds : str) :
  Forall (fun c => isdigit c = true) ds ->
  parse ds =
    if forallb isdecimal ds && (Z.of_nat (length ds) <=? MAX_STR_DIGITS)
    then match ds with
         | [] => None
         | _ :: _ => Some (decimal_value ds)
         end
    else None.
Proof.
  intros Hds. unfold parse. rewrite (strip_digits _ Hds).
  destruct ds as [|c r]; [by destruct (_ && _)|].
  assert (isdigit c = true) as Hc by (by inversion Hds).
  rewrite (isdigit_not_char c "+"), (isdigit_not_char c "-") by done.
  unfold number.
  destruct (forallb isdecimal (c :: r)) eqn:E; cbn [andb].
  - rewrite (filter_id _ _ E).
    destruct (_ <=? _); [|done].
    apply digits_all; [|by left].
    apply Forall_forall. intros x Hx%list_elem_of_In.
    rewrite forallb_forall in E. by apply E.
  - rewrite (digits_stop _ _ _ Hds E). by destruct (_ <=? _).
Qed.

Lemma decimal_value_nonneg_from (ds : str) (acc : Z) :
  Forall (fun c => isdecimal c = true) ds -> 0 <= acc ->
  0 <= fold_left (fun n c => 10 * n + digit_value c) ds acc.
Proof.
  intros Hds. revert acc.
  induction Hds as [|c ds Hc Hds IH]; intros acc Hacc; simpl; [done|].
  apply IH. apply digit_value_range in Hc. lia.
Qed.

Lemma filter_Forall (f : ascii -> bool) (s : str) :
  Forall (fun c => f c = true) (List.filter f s).
Proof.
  apply List.Forall_forall. intros c Hc. by apply List.filter_In in Hc as [_ ?].
Qed.

Lemma digit_loop (s acc : str) :
  fold_left (fun acc c => if isdigit c then acc ++ [c] else acc) s acc
  = acc ++ List.filter isdigit s.
Proof.
  revert acc. induction s as [|c s IH]; intros acc; simpl.
  - by rewrite app_nil_r.
  - rewrite IH. destruct (isdigit c); [|done].
    by rewrite <- app_assoc.
Qed.

(** When every [isdigit] character is a decimal digit, the two classes
    pick the same characters. *)
Lemma filter_isdigit_decimal (s : str) :
  forallb isdecimal (List.filter isdigit s) = true ->
  List.filter isdecimal s = List.filter isdigit s.
Proof.
  induction s as [|c s IH]; simpl; [done|].
  destruct (isdigit c) eqn:E; simpl.
  - intros [-> H]%andb_true_iff. by rewrite IH.
  - intros H. rewrite IH by done.
    destruct (isdecimal c) eqn:E'; [|done].
    apply isdecimal_isdigit in E'. congruence.
Qed.

(** [__str_to_int], from the [isdigit] characters of the text. *)
Lemma str_to_int_eq (s : str) :
  __str_to_int s =
    if forallb isdecimal (List.filter isdigit s)
       && (Z.of_nat (length (List.filter isdigit s)) <=? MAX_STR_DIGITS)
    then digits_to_integer_spec s
    else Raise ValueError.
Proof.
  unfold __str_to_int, digits_to_integer_spec, PyInt.int.
  rewrite digit_loop. cbn [app].
  rewrite (parse_digits _ (filter_Forall isdigit s)).
  destruct (forallb isdecimal (List.filter isdigit s)) eqn:E; [|done].
  rewrite (filter_isdigit_decimal _ E). cbn [andb].
  destruct (_ <=? _); [|done].
  by destruct (List.filter isdigit s).
Qed.

End int_facts.



Section count_facts.

Import PyStr.

Lemma filter_char_take (c : ascii) (s : str) (i : nat) :
  (forall j, (j < i)%nat -> startswith [c] (drop j s) = false) ->
  List.filter (Ascii.eqb c) (take i s) = [].
Proof.
  revert s. induction i as [|i IH]; intros s H; [done|].
  destruct s as [|x s]; [done|]. simpl.
  pose proof (H 0%nat ltac:(lia)) as H0. simpl in H0.
  destruct (Ascii.eqb c x); [done|].
  apply IH. intros j Hj. apply (H (S j)). lia.
Qed.

(** [s.count(c)] for a one-character text is the number of characters of
    [s] equal to it. *)
Lemma count_char (c : ascii) (s : str) :
  count_fuel (length s) [c] s = length (List.filter (Ascii.eqb c) s).
Proof.
  remember (length s) as n eqn:Hn. revert s Hn.
  induction n as [n IH] using lt_wf_ind. intros s ->.
  rewrite count_fuel_unfold by done.
  destruct (find [c] s) as [i|] eqn:F.
  - pose proof (find_Some_split _ _ _ F) as Hs.
    pose proof (find_Some _ _ _ F) as (H1 & Hlen & Hlt).
    assert (length (drop (i + length [c]) s) < length s)%nat as Hd
      by (rewrite length_drop; simpl in *; lia).
    rewrite (IH _ Hd _ eq_refl).
    rewrite Hs at 2. rewrite !List.filter_app.
    rewrite (filter_char_take _ _ _ Hlt). simpl.
    by rewrite Ascii.eqb_refl.
  - pose proof (filter_char_take c s (length s)) as H.
    rewrite firstn_all in H. rewrite H; [done|].
    intros j _. by apply find_None.
Qed.

Lemma count_dash (s : str) : count "-" s = separator_count s.
Proof. unfold count, separator_count. f_equal. apply (count_char "-"). Qed.

End count_facts.

(** C3. A text whose number of ['-'] separators is neither 2 nor 5 makes
    [__extract_date] raise [UnboundLocalError] (UnrecognizedDateFormat):
    neither branch assigns [date] before [return date]. *)
Theorem extract_date_other_count (s : str) :
  separator_count s <> 2 -> separator_count s <> 5 ->
  __extract_date s = Raise UnboundLocalError.
Proof.
  intros H2 H5. unfold __extract_date. rewrite count_dash.
  destruct (Z.eqb_spec (separator_count s) 2); [done|].
  destruct (Z.eqb_spec (separator_count s) 5); done.
Qed.

Lemma extract_date_other_count_witness :
  __extract_date "2018-01-052018-01-07" = Raise UnboundLocalError.
Proof.
  apply extract_date_other_count; vm_compute; discriminate.
Defined.

Section date_facts.

Lemma strptime_valid (s : str) (d : date) :
  strptime s = Ok d -> valid d = true.
Proof.
  unfold strptime.
  destruct (_ ≫= _) as [d'|]; [|done].
  destruct (valid d') eqn:E; [|done]. by intros [= <-].
Qed.

Lemma strptime_error (s : str) (e : exn) :
  strptime s = Raise e -> e = ValueError.
Proof.
  unfold strptime.
  destruct (_ ≫= _) as [d'|]; [destruct (valid d')|]; congruence.
Qed.

Lemma days_before_year_bounds (y : Z) :
  1 <= y <= 9998 -> 0 <= days_before_year y <= 3651428.
Proof.
  intros Hy. unfold days_before_year.
  Z.div_mod_to_equations. lia.
Qed.

Lemma month_days_bounds (y m d : Z) :
  1 <= m <= 12 -> 1 <= d <= days_in_month y m ->
  1 <= days_before_month y m + d <= 365 + (if is_leap y then 1 else 0).
Proof.
  intros Hm. unfold days_in_month, days_before_month.
  assert (m = 1 \/ m = 2 \/ m = 3 \/ m = 4 \/ m = 5 \/ m = 6 \/ m = 7
          \/ m = 8 \/ m = 9 \/ m = 10 \/ m = 11 \/ m = 12) as Hcases by lia.
  destruct (is_leap y);
    repeat (destruct Hcases as [-> | Hcases]); try subst m; simpl; lia.
Qed.

(** A date that passed the constructor's check has an ordinal in
    [1, MAXORDINAL]. *)
Lemma valid_ordinal (d : date) :
  valid d = true -> 1 <= toordinal d <= MAXORDINAL.
Proof.
  destruct d as [y m dd]. unfold valid, toordinal, MINYEAR, MAXYEAR. simpl.
  rewrite !andb_true_iff, !Z.leb_le.
  intros (((((Hy1 & Hy2) & Hm1) & Hm2) & Hd1) & Hd2).
  pose proof (month_days_bounds y m dd ltac:(lia) ltac:(lia)) as Hmd.
  destruct (Z.eq_dec y 9999) as [->|Hne].
  - change (is_leap 9999) with false in Hmd.
    change (days_before_year 9999) with 3651694. unfold MAXORDINAL. lia.
  - pose proof (days_before_year_bounds y ltac:(lia)) as Hby.
    unfold MAXORDINAL. destruct (is_leap y); lia.
Qed.

Lemma mk_timedelta_ok (us : Z) :
  - MAX_DELTA_DAYS <= us / US_PER_DAY <= MAX_DELTA_DAYS ->
  mk_timedelta us = Ok us.
Proof.
  intros [H1 H2]. unfold mk_timedelta.
  apply Z.leb_le in H1, H2. by rewrite H1, H2.
Qed.

Lemma half_of_days (k : Z) :
  divide_and_round (k * US_PER_DAY) 2 = k * 43200000000.
Proof.
  unfold divide_and_round, US_PER_DAY, US_PER_SECOND.
  replace (k * (86400 * 1000000)) with ((k * 43200000000) * 2) by lia.
  rewrite Z.div_mul, Z.mod_mul by done. simpl.
  destruct (2 <? 0) eqn:E; [apply Z.ltb_lt in E; lia|]. done.
Qed.

Lemma days_of_half (k : Z) : days (k * 43200000000) = k / 2.
Proof.
  unfold days, US_PER_DAY, US_PER_SECOND.
  change (86400 * 1000000) with (2 * 43200000000).
  by rewrite Z.div_mul_cancel_r.
Qed.

(** The three steps of [date_1 + (date_2 - date_1) / 2] on checked dates. *)
Lemma midpoint_run (d1 d2 : date) :
  valid d1 = true -> valid d2 = true ->
  (span ← date_sub d2 d1; half ← td_div span 2; date_add d1 half)
  = Ok (midpoint_spec d1 d2).
Proof.
  intros [Ha1 Ha2]%valid_ordinal [Hb1 Hb2]%valid_ordinal.
  unfold MAXORDINAL in *.
  unfold date_sub. rewrite mk_timedelta_ok; cycle 1.
  { rewrite Z.div_mul by done. unfold MAX_DELTA_DAYS. lia. }
  simpl. unfold td_div. rewrite half_of_days.
  rewrite mk_timedelta_ok; cycle 1.
  { fold (days ((toordinal d2 - toordinal d1) * 43200000000)).
    rewrite days_of_half. unfold MAX_DELTA_DAYS.
    Z.div_mod_to_equations. lia. }
  simpl. unfold date_add. rewrite days_of_half.
  assert (0 < toordinal d1 + (toordinal d2 - toordinal d1) / 2
          <= MAXORDINAL) as [H1 H2].
  { unfold MAXORDINAL. Z.div_mod_to_equations. lia. }
  apply Z.ltb_lt in H1. apply Z.leb_le in H2. by rewrite H1, H2.
Qed.

End date_facts.

(** C2. A text with exactly five ['-'] separators is read as a range: its
    first 10 characters are parsed as date 1, its characters 11 to 20 as
    date 2 (the character at index 10 is not looked at), and the result is
    date 1 plus half the span, the half-day being dropped when the span is
    odd; if either part is not a date, [strptime]'s [ValueError] comes
    out. *)
Theorem extract_date_range (s : str) :
  separator_count s = 5 ->
  __extract_date s = range_date_spec s
  /\ forall c, range_date_spec (<[10%nat:=c]> s) = range_date_spec s.
Proof.
  intros H. split; cycle 1.
  { intros c. unfold range_date_spec.
    rewrite take_insert, drop_insert_lt by lia. case_decide; [lia|done]. }
  unfold __extract_date, range_date_spec.
  rewrite count_dash, H. simpl.
  destruct (strptime (take 10 s)) as [d1|e1] eqn:E1; simpl; [|done].
  destruct (strptime (take 10 (drop 11 s))) as [d2|e2] eqn:E2; simpl; [|done].
  apply midpoint_run; by eapply strptime_valid.
Qed.

Lemma extract_date_range_witness :
  __extract_date "2018-01-05-2018-01-07" = Ok (mkdate 2018 1 6).
Proof.
  exact (proj1 (extract_date_range "2018-01-05-2018-01-07" eq_refl)).
Defined.

(** * Splitting at markers *)

Section split_facts.

Import PyStr.

Lemma getitem_split_0 (sep s : str) :
  sep <> [] -> getitem (split sep s) 0 = Ok (before_first sep s).
Proof.
  intros Hsep. rewrite split_unfold by done. unfold before_first.
  by destruct (find sep s).
Qed.

Lemma getitem_split_1 (sep s : str) :
  sep <> [] ->
  getitem (split sep s) 1 =
    match find sep s with
    | None => Raise IndexError
    | Some i => Ok (before_first sep (drop (i + length sep) s))
    end.
Proof.
  intros Hsep. rewrite split_unfold by done.
  destruct (find sep s) as [i|]; [|done].
  change (getitem (?x :: ?l) 1) with (getitem l 0).
  by apply getitem_split_0.
Qed.

Lemma section_between_eq (opening closing report : str) :
  opening <> [] -> closing <> [] ->
  section_between opening closing report =
    match find opening report with
    | None => Raise IndexError
    | Some i =>
        Ok (before_first closing
              (before_first opening (drop (i + length opening) report)))
    end.
Proof.
  intros Ho Hc. unfold section_between.
  rewrite getitem_split_1 by done.
  destruct (find opening report) as [i|]; [|done].
  simpl. by apply getitem_split_0.
Qed.

Lemma startswith_take (p s : str) (n : nat) :
  startswith p s = true -> (length p <= n)%nat ->
  startswith p (take n s) = true.
Proof.
  intros H Hn. rewrite (startswith_inv _ _ H).
  rewrite take_app_ge by done.
  apply startswith_app.
Qed.

Lemma startswith_take_inv (p s : str) (n : nat) :
  startswith p (take n s) = true -> startswith p s = true.
Proof.
  intros H. rewrite <- (take_drop n s).
  rewrite (startswith_inv _ _ H), <- app_assoc.
  apply startswith_app.
Qed.

(** An occurrence that ends before a cut is still the first one. *)
Lemma find_take (sub s : str) (j k : nat) :
  find sub s = Some j -> (j + length sub <= k)%nat ->
  find sub (take k s) = Some j.
Proof.
  intros (H1 & Hlen & Hlt)%find_Some Hk.
  apply find_first.
  - rewrite skipn_firstn_comm.
    apply startswith_take; [done|lia].
  - rewrite length_take. lia.
  - intros i Hi. specialize (Hlt i Hi).
    destruct (startswith sub (drop i (take k s))) eqn:E; [|done].
    rewrite skipn_firstn_comm in E.
    apply startswith_take_inv in E. congruence.
Qed.

Lemma agree_startswith (a q r : str) :
  startswith q (a ++ r) = true -> agree a q = true.
Proof.
  revert q. induction a as [|x a IH]; intros [|y q]; simpl; try done.
  rewrite (Ascii.eqb_sym x y).
  destruct (Ascii.eqb y x); [|done]. apply IH.
Qed.

(** Two markers that cannot overlap: an occurrence of [q] after the start
    of an occurrence of [p] starts after its end. *)
Lemma no_overlap_after (p q s : str) (j k : nat) :
  no_overlap p q = true ->
  startswith p (drop j s) = true -> startswith q (drop k s) = true ->
  (j < k)%nat -> (j + length p <= k)%nat.
Proof.
  intros Hno Hp Hq Hjk.
  destruct (decide (j + length p <= k)%nat) as [|Hlt]; [done|exfalso].
  unfold no_overlap in Hno. rewrite forallb_forall in Hno.
  specialize (Hno (k - j)%nat).
  rewrite negb_true_iff in Hno.
  assert (agree (drop (k - j) p) q = true) as Hagree.
  { apply startswith_inv in Hp.
    replace k with (j + (k - j))%nat in Hq by lia.
    rewrite <- drop_drop, Hp in Hq.
    rewrite drop_app_le in Hq by lia.
    by apply agree_startswith in Hq. }
  rewrite Hno in Hagree; [done|].
  apply in_seq. lia.
Qed.

(** The text after an opening marker, cut at the first closing marker,
    provided no further opening marker comes first. *)
Lemma before_first_both (opening closing rest : str) (j : nat) :
  no_overlap closing opening = true ->
  find closing rest = Some j ->
  (forall k, find opening rest = Some k -> (j < k)%nat) ->
  before_first closing (before_first opening rest) = take j rest.
Proof.
  intros Hno Hc Ho. unfold before_first at 2.
  destruct (find opening rest) as [k|] eqn:F.
  - specialize (Ho k eq_refl).
    pose proof (find_Some _ _ _ Hc) as (Hc1 & _ & _).
    pose proof (find_Some _ _ _ F) as (Ho1 & _ & _).
    pose proof (no_overlap_after _ _ _ _ _ Hno Hc1 Ho1 Ho) as Hend.
    unfold before_first. rewrite (find_take _ _ _ _ Hc Hend).
    rewrite take_take. f_equal. lia.
  - unfold before_first. by rewrite Hc.
Qed.

End split_facts.

Section locate_facts.

Import PyStr.

Lemma section_bounds_inv (opening closing document : str) (i j : nat) :
  section_bounds opening closing document = Some (i, j) ->
  find opening document = Some i
  /\ find closing (drop (i + length opening) document) = Some j
  /\ forall k,
      find opening (drop (i + length opening) document) = Some k ->
      (j < k)%nat.
Proof.
  unfold section_bounds.
  destruct (find opening document) as [i'|] eqn:Fo; simpl; [|done].
  destruct (find closing _) as [j'|] eqn:Fc; simpl; [|done].
  destruct (find opening (drop _ _)) as [k|] eqn:Fk.
  - destruct (Nat.ltb_spec j' k); [|done].
    intros [= <- <-]. rewrite Fc, Fk. repeat split; try done.
    by intros ? [= <-].
  - intros [= <- <-]. rewrite Fc, Fk. done.
Qed.

(** What [s.split(opening)[1].split(closing)[0]] is when the section is
    well bounded. *)
Lemma section_between_bounds (opening closing document : str) (i j : nat) :
  opening <> [] -> closing <> [] -> no_overlap closing opening = true ->
  section_bounds opening closing document = Some (i, j) ->
  section_between opening closing document
  = Ok (take j (drop (i + length opening) document))
  /\ is_between opening closing document
       (take j (drop (i + length opening) document)).
Proof.
  intros Ho Hc Hno (Fo & Fc & Fk)%section_bounds_inv. split.
  - rewrite section_between_eq, Fo by done.
    f_equal. by apply before_first_both.
  - exists (take i document),
      (drop (j + length closing) (drop (i + length opening) document)).
    pose proof (find_Some _ _ _ Fo) as (_ & Hlen & _).
    rewrite <- (find_Some_split _ _ _ Fc).
    rewrite <- (find_Some_split _ _ _ Fo).
    rewrite !length_take. pose proof (find_Some _ _ _ Fc) as (_ & Hlen' & _).
    rewrite length_drop in Hlen'.
    rewrite Fo, Fc, length_drop. repeat split; f_equal; lia.
Qed.

End locate_facts.

(** C8 (as amended). When, for each section, the closing anchor occurs
    after the first occurrence of the opening anchor and before any further
    occurrence of that opening anchor, the section is the text between the
    two: battery-info between "Installed batteries" and "Recent usage",
    usage-history between "Usage history" and "Battery capacity history",
    capacity-history between "Battery capacity history" and "Battery life
    estimates".  The opening anchor is searched on the whole document, the
    closing one in the text that follows it. *)
Theorem section_locator (report : str) (i1 j1 i2 j2 i3 j3 : nat) :
  section_bounds "Installed batteries" "Recent usage" report
    = Some (i1, j1) ->
  section_bounds "Usage history" "Battery capacity history" report
    = Some (i2, j2) ->
  section_bounds "Battery capacity history" "Battery life estimates" report
    = Some (i3, j3) ->
  let battery := take j1 (drop (i1 + 19) report) in
  let usage := take j2 (drop (i2 + 13) report) in
  let capacity := take j3 (drop (i3 + 24) report) in
  (battery_info_section report = Ok battery
   /\ is_between "Installed batteries" "Recent usage" report battery)
  /\ (usage_info_section report = Ok usage
      /\ is_between "Usage history" "Battery capacity history" report usage)
  /\ (capacity_info_section report = Ok capacity
      /\ is_between "Battery capacity history" "Battery life estimates"
           report capacity).
Proof.
  intros H1 H2 H3. cbv zeta.
  split; [|split].
  - by apply (section_between_bounds "Installed batteries" "Recent usage").
  - by apply (section_between_bounds "Usage history"
                "Battery capacity history").
  - by apply (section_between_bounds "Battery capacity history"
                "Battery life estimates").
Qed.

Lemma section_locator_witness :
  (battery_info_section sample_report
     = Ok (take 715 (drop (28 + 19) sample_report))
   /\ is_between "Installed batteries" "Recent usage" sample_report
        (take 715 (drop (28 + 19) sample_report)))
  /\ (usage_info_section sample_report
        = Ok (take 474 (drop (784 + 13) sample_report))
      /\ is_between "Usage history" "Battery capacity history" sample_report
           (take 474 (drop (784 + 13) sample_report)))
  /\ (capacity_info_section sample_report
        = Ok (take 190 (drop (1271 + 24) sample_report))
      /\ is_between "Battery capacity history" "Battery life estimates"
           sample_report (take 190 (drop (1271 + 24) sample_report))).
Proof.
  apply (section_locator sample_report 28 715 784 474 1271 190);
    vm_compute; reflexivity.
Defined.

(** C8, as stated, fails: the document below contains the four anchors, the
    text between the first "Installed batteries" and the first "Recent
    usage" of the whole document is ["|a|Installed batteries|b|"], and the
    battery-info section is ["|a|"]. *)
Lemma section_locator_counterexample :
  Forall (fun anchor : str =>
            PyStr.find anchor repeated_heading_report <> None)
    ["Installed batteries" : str; "Recent usage" : str;
     "Usage history" : str; "Battery capacity history" : str;
     "Battery life estimates" : str]
  /\ text_between_spec "Installed batteries" "Recent usage"
       repeated_heading_report
     = Some ("|a|Installed batteries|b|" : str)
  /\ battery_info_section repeated_heading_report = Ok ("|a|" : str)
  /\ battery_info_section repeated_heading_report
     <> Ok ("|a|Installed batteries|b|" : str).
Proof.
  split; [|split; [|split]]; try (vm_compute; reflexivity).
  - repeat constructor; vm_compute; discriminate.
  - vm_compute. discriminate.
Qed.

(** * The tokenizer *)

Section tokenizer_facts.

Import PyStr.

Lemma mapM_Ok_map {A B : Type} (f : A -> result B) (g : A -> B)
    (l : list A) :
  (forall x, f x = Ok (g x)) -> mapM f l = Ok (map g l).
Proof.
  intros Hf. induction l as [|x l IH]; [done|].
  simpl. rewrite Hf. simpl. by rewrite IH.
Qed.

Lemma extract_row_eq (r : str) : extract_row r = Ok (row_cells r).
Proof.
  unfold extract_row, row_cells. by rewrite getitem_split_0.
Qed.

(** Once the table region is found, nothing else can fail. *)
Lemma extract_html_table_eq (s : str) :
  __extract_html_table s =
    (t ← table_with_metadata (clean_table_text s);
     Ok (map row_cells (drop 1 (split "<tr" t)))).
Proof.
  unfold __extract_html_table.
  destruct (table_with_metadata (clean_table_text s)) as [t|e]; [|done].
  simpl. apply mapM_Ok_map, extract_row_eq.
Qed.

Lemma table_with_metadata_eq (t : str) :
  table_with_metadata t =
    match find "<table>" t with
    | None => Raise IndexError
    | Some i =>
        Ok (before_first "</table>" (before_first "<table>" (drop (i + 7) t)))
    end.
Proof. by apply (section_between_eq "<table>" "</table>"). Qed.

Variable P : ascii -> Prop.

Lemma split_fuel_Forall (n : nat) (sep s : str) :
  Forall P s -> Forall (Forall P) (split_fuel n sep s).
Proof.
  revert s. induction n as [|n IH]; intros s Hs; simpl;
    destruct (find sep s); repeat constructor; try done.
  - by apply Forall_take.
  - by apply IH, Forall_drop.
Qed.

Lemma split_Forall (sep s : str) :
  Forall P s -> Forall (Forall P) (split sep s).
Proof. apply split_fuel_Forall. Qed.

Lemma replace_fuel_Forall (n : nat) (old new s : str) :
  Forall P s -> Forall P new -> Forall P (replace_fuel n old new s).
Proof.
  intros Hs Hnew. revert s Hs. induction n as [|n IH]; intros s Hs; simpl;
    destruct (find old s); try done.
  apply Forall_app. split; [by apply Forall_take|].
  apply Forall_app. split; [done|]. by apply IH, Forall_drop.
Qed.

Lemma replace_Forall (old new s : str) :
  Forall P s -> Forall P new -> Forall P (replace old new s).
Proof. apply replace_fuel_Forall. Qed.

Lemma before_first_Forall (sep s : str) :
  Forall P s -> Forall P (before_first sep s).
Proof.
  intros Hs. unfold before_first. destruct (find sep s); [|done].
  by apply Forall_take.
Qed.

Lemma extract_cell_Forall (d : str) : Forall P d -> Forall P (extract_cell d).
Proof.
  intros Hd. unfold extract_cell.
  apply replace_Forall; [by apply Forall_drop|constructor].
Qed.

Lemma row_cells_Forall (r : str) :
  Forall P r -> Forall (Forall P) (row_cells r).
Proof.
  intros Hr. unfold row_cells, __extract_row_data.
  apply Forall_drop, Forall_map.
  eapply Forall_impl; [apply split_Forall|apply extract_cell_Forall].
  by apply before_first_Forall, Forall_drop.
Qed.

End tokenizer_facts.

Section whitespace_facts.

Import PyStr.

Lemma take_without_char (c : ascii) (s : str) (i : nat) :
  (forall j, (j < i)%nat -> startswith [c] (drop j s) = false) ->
  Forall (fun x => x <> c) (take i s).
Proof.
  revert s. induction i as [|i IH]; intros s H; [constructor|].
  destruct s as [|x s]; [constructor|]. simpl.
  pose proof (H 0%nat ltac:(lia)) as H0. simpl in H0.
  constructor.
  - intros ->. by rewrite Ascii.eqb_refl in H0.
  - apply IH. intros j Hj. apply (H (S j)). lia.
Qed.

(** Replacing a character by nothing leaves no occurrence of it. *)
Lemma replace_char_gone (c : ascii) (s : str) :
  Forall (fun x => x <> c) (replace [c] [] s).
Proof.
  remember (length s) as n eqn:Hn. revert s Hn.
  induction n as [n IH] using lt_wf_ind. intros s ->.
  rewrite replace_unfold by done.
  destruct (find [c] s) as [i|] eqn:F.
  - pose proof (find_Some _ _ _ F) as (_ & Hlen & Hlt).
    apply Forall_app. split; [by apply take_without_char|]. simpl.
    eapply IH; [|done]. rewrite length_drop. simpl in *. lia.
  - rewrite <- (firstn_all s). apply take_without_char.
    intros j _. by apply find_None.
Qed.

Lemma clean_table_text_no_whitespace (s : str) :
  Forall no_whitespace (clean_table_text s).
Proof.
  unfold clean_table_text, no_whitespace.
  apply replace_Forall; [|constructor].
  pose proof (replace_char_gone " " s) as H1.
  pose proof (replace_char_gone CR (replace " " "" s)) as H2.
  pose proof (replace_char_gone LF (replace [CR] "" (replace " " "" s)))
    as H3.
  apply (replace_Forall _ [CR] []) in H1; [|constructor].
  apply (replace_Forall _ [LF] []) in H1, H2; try constructor.
  rewrite Forall_forall in H1, H2, H3. apply Forall_forall.
  intros c Hc. auto.
Qed.

Lemma table_with_metadata_Forall (P : ascii -> Prop) (t content : str) :
  Forall P t -> table_with_metadata t = Ok content -> Forall P content.
Proof.
  intros Ht. rewrite table_with_metadata_eq.
  destruct (find "<table>" t) as [i|]; [|done]. intros [= <-].
  by apply before_first_Forall, before_first_Forall, Forall_drop.
Qed.

Lemma extract_html_table_no_whitespace (s : str) (table : list (list str)) :
  __extract_html_table s = Ok table ->
  Forall (Forall (Forall no_whitespace)) table.
Proof.
  rewrite extract_html_table_eq.
  destruct (table_with_metadata (clean_table_text s)) as [t|] eqn:E; [|done].
  simpl. intros [= <-].
  apply Forall_map, Forall_drop.
  eapply Forall_impl; [apply split_Forall|apply row_cells_Forall].
  eapply table_with_metadata_Forall; [|done].
  apply clean_table_text_no_whitespace.
Qed.

End whitespace_facts.

(** * The error monad *)

Section monad_facts.

Context {A B : Type}.

Lemma bind_Ok (m : result A) (f : A -> result B) (b : B) :
  m ≫= f = Ok b -> exists a, m = Ok a /\ f a = Ok b.
Proof. destruct m as [a|e]; [|done]. intros H. by exists a. Qed.

Lemma fmap_Ok (m : result A) (f : A -> B) (b : B) :
  f <$> m = Ok b -> exists a, m = Ok a /\ b = f a.
Proof. destruct m as [a|e]; [|done]. intros [= <-]. by exists a. Qed.

Lemma getitem_Ok (l : list A) (i : nat) (x : A) :
  getitem l i = Ok x -> l !! i = Some x.
Proof. unfold getitem. destruct (l !! i); [|done]. by intros [= ->]. Qed.

Lemma getitem_Some (l : list A) (i : nat) (x : A) :
  l !! i = Some x -> getitem l i = Ok x.
Proof. unfold getitem. by intros ->. Qed.

End monad_facts.

Lemma mapM_Ok_Forall2 {A B : Type} (f : A -> result B) (l : list A)
    (k : list B) :
  mapM f l = Ok k -> Forall2 (fun x y => f x = Ok y) l k.
Proof.
  revert k. induction l as [|x l IH]; intros k; simpl.
  - intros [= <-]. constructor.
  - intros (y & Hy & (k' & Hk' & [= <-])%bind_Ok)%bind_Ok.
    constructor; [done|by apply IH].
Qed.

Lemma mapM_Ok_length {A B : Type} (f : A -> result B) (l : list A)
    (k : list B) :
  mapM f l = Ok k -> length k = length l.
Proof. intros H%mapM_Ok_Forall2. symmetry. by eapply Forall2_length. Qed.

(** * The battery information *)

Lemma information_of_table_Ok (table : list (list str)) (info : information) :
  information_of_table table = Ok info ->
  exists r0 r1 r2 r3 r4 r5 r6 r7 design actual cyc,
    (table !! 0%nat = Some r0 /\ table !! 1%nat = Some r1
     /\ table !! 2%nat = Some r2 /\ table !! 3%nat = Some r3
     /\ table !! 4%nat = Some r4 /\ table !! 5%nat = Some r5
     /\ table !! 6%nat = Some r6 /\ table !! 7%nat = Some r7)
    /\ (mapM __str_to_int (drop 1 r5) = Ok design
        /\ mapM __str_to_int (drop 1 r6) = Ok actual
        /\ mapM __str_to_int (drop 1 r7) = Ok cyc)
    /\ info = mkinformation (Z.of_nat (length r0) - 1)
                (drop 1 r1) (drop 1 r2) (drop 1 r3) (drop 1 r4)
                design actual cyc.
Proof.
  intros H. unfold information_of_table, int_column in H.
  apply bind_Ok in H as (r0 & H0%getitem_Ok & H).
  apply bind_Ok in H as (n1 & (r1 & H1%getitem_Ok & ->)%fmap_Ok & H).
  apply bind_Ok in H as (n2 & (r2 & H2%getitem_Ok & ->)%fmap_Ok & H).
  apply bind_Ok in H as (n3 & (r3 & H3%getitem_Ok & ->)%fmap_Ok & H).
  apply bind_Ok in H as (n4 & (r4 & H4%getitem_Ok & ->)%fmap_Ok & H).
  apply bind_Ok in H as (design & (r5 & H5%getitem_Ok & Hd)%bind_Ok & H).
  apply bind_Ok in H as (actual & (r6 & H6%getitem_Ok & Ha)%bind_Ok & H).
  apply bind_Ok in H as (cyc & (r7 & H7%getitem_Ok & Hc)%bind_Ok & H).
  injection H as <-.
  exists r0, r1, r2, r3, r4, r5, r6, r7, design, actual, cyc.
  repeat split; done.
Qed.

(** C10. Every cell that the tokenizer produces is free of spaces, carriage
    returns and line feeds, and so is every name, manufacturer, serial and
    chemistry of the battery information: the clean-up removes these
    characters from the whole text, cell contents included. *)
Theorem cells_without_whitespace :
  (forall (s : str) (table : list (list str)),
      __extract_html_table s = Ok table ->
      Forall (Forall (Forall no_whitespace)) table)
  /\ (forall (report : str) (info : information),
         get_battery_information report = Ok info ->
         Forall (Forall no_whitespace)
           (names info ++ manufacturers info ++ serials info
              ++ chemistries info)).
Proof.
  split; [apply extract_html_table_no_whitespace|].
  intros report info H. unfold get_battery_information in H.
  apply bind_Ok in H as (sec & _ & H).
  apply bind_Ok in H as (table & E & H).
  apply extract_html_table_no_whitespace in E.
  apply information_of_table_Ok in H
    as (r0 & r1 & r2 & r3 & r4 & r5 & r6 & r7 & design & actual & cyc
        & (_ & H1 & H2 & H3 & H4 & _) & _ & ->).
  simpl. rewrite !Forall_app.
  repeat split; apply Forall_drop;
    eapply (Forall_lookup_1 _ _ _ _ E); eassumption.
Qed.

Lemma cells_without_whitespace_witness :
  Forall (Forall no_whitespace)
    ["DELL7VTMN" : str; "AUX01" : str; "AUX02" : str;
     "SMP" : str; "LGC" : str; "LGC" : str;
     "1082" : str; "77" : str; "78" : str;
     "LiIon" : str; "LiP" : str; "LiP" : str].
Proof.
  apply (proj2 cells_without_whitespace sample_report
           (mkinformation 3
              ["DELL7VTMN" : str; "AUX01" : str; "AUX02" : str]
              ["SMP" : str; "LGC" : str; "LGC" : str]
              ["1082" : str; "77" : str; "78" : str]
              ["LiIon" : str; "LiP" : str; "LiP" : str]
              [56000; 1109; 993] [48123; 1000; 900] [312; 4; 0])).
  vm_compute. reflexivity.
Defined.

(** C7. When the battery-info table has exactly eight rows of [n + 1] cells
    each, the battery count is [n]; names, manufacturers, serials and
    chemistries are the raw cells of rows 1 to 4 after the label cell;
    design capacities, actual capacities and cycle counts are the cells of
    rows 5 to 7 after the label cell, each converted by [__str_to_int]; and
    all seven columns have length [n]. *)
Theorem battery_information_columns
    (report section : str) (r0 r1 r2 r3 r4 r5 r6 r7 : list str) (n : nat) :
  battery_info_section report = Ok section ->
  __extract_html_table section = Ok [r0; r1; r2; r3; r4; r5; r6; r7] ->
  Forall (fun r => length r = S n) [r0; r1; r2; r3; r4; r5; r6; r7] ->
  get_battery_information report
  = (design ← mapM __str_to_int (drop 1 r5);
     actual ← mapM __str_to_int (drop 1 r6);
     cyc ← mapM __str_to_int (drop 1 r7);
     Ok (mkinformation (Z.of_nat n) (drop 1 r1) (drop 1 r2) (drop 1 r3)
           (drop 1 r4) design actual cyc))
  /\ forall info,
      get_battery_information report = Ok info ->
      battery_count info = Z.of_nat n
      /\ length (names info) = n
      /\ length (manufacturers info) = n
      /\ length (serials info) = n
      /\ length (chemistries info) = n
      /\ length (design_capacities info) = n
      /\ length (actual_capacities info) = n
      /\ length (cycles info) = n.
Proof.
  intros Hsec Htable Hlen.
  assert (get_battery_information report
          = (design ← mapM __str_to_int (drop 1 r5);
             actual ← mapM __str_to_int (drop 1 r6);
             cyc ← mapM __str_to_int (drop 1 r7);
             Ok (mkinformation (Z.of_nat n) (drop 1 r1) (drop 1 r2)
                   (drop 1 r3) (drop 1 r4) design actual cyc))) as Heq.
  { unfold get_battery_information. rewrite Hsec. simpl.
    rewrite Htable. simpl.
    unfold information_of_table, int_column. simpl.
    inversion_clear Hlen as [|? ? H0 _].
    replace (Z.of_nat (length r0) - 1) with (Z.of_nat n) by lia.
    done. }
  split; [done|].
  intros info. rewrite Heq. intros H.
  apply bind_Ok in H as (design & Hd%mapM_Ok_length & H).
  apply bind_Ok in H as (actual & Ha%mapM_Ok_length & H).
  apply bind_Ok in H as (cyc & Hc%mapM_Ok_length & H).
  injection H as <-. simpl.
  rewrite !Forall_cons in Hlen.
  destruct Hlen as (_ & H1 & H2 & H3 & H4 & H5 & H6 & H7 & _).
  rewrite Hd, Ha, Hc, !length_drop. repeat split; lia.
Qed.

Lemma battery_information_columns_witness :
  get_battery_information sample_report
  = Ok (mkinformation 3
          ["DELL7VTMN" : str; "AUX01" : str; "AUX02" : str]
          ["SMP" : str; "LGC" : str; "LGC" : str]
          ["1082" : str; "77" : str; "78" : str]
          ["LiIon" : str; "LiP" : str; "LiP" : str]
          [56000; 1109; 993] [48123; 1000; 900] [312; 4; 0]).
Proof.
  refine (proj1 (battery_information_columns sample_report
    (take 715 (drop (28 + 19) sample_report))
    ["" : str; "BATTERY1" : str; "BATTERY2" : str; "BATTERY3" : str]
    ["<spanclass=label>NAME</span>" : str; "DELL7VTMN" : str;
     "AUX01" : str; "AUX02" : str]
    ["MANUFACTURER" : str; "SMP" : str; "LGC" : str; "LGC" : str]
    ["SERIALNUMBER" : str; "1082" : str; "77" : str; "78" : str]
    ["CHEMISTRY" : str; "LiIon" : str; "LiP" : str; "LiP" : str]
    ["DESIGNCAPACITY" : str; "56,000mWh" : str; "1.109mWh" : str;
     "0993mWh" : str]
    ["FULLCHARGECAPACITY" : str; "48,123mWh" : str; "1.000mWh" : str;
     "900mWh" : str]
    ["CYCLECOUNT" : str; "312" : str; "4" : str; "-0" : str]
    3 _ _ _)).
  - vm_compute. reflexivity.
  - vm_compute. reflexivity.
  - repeat constructor.
Defined.

(** C1 (as amended). Only the table-open marker is required.  Without
    ["<table>"] in the cleaned text, [__extract_html_table] raises
    [IndexError] (NoTableFound).  With it, the call succeeds, and the table
    content is the text after the first open marker, cut at the next open
    marker if there is one and then at the first close marker if one is
    left.  When a close marker follows the first open marker before any
    further open marker, the content is exactly the text between the two,
    markers excluded. *)
Theorem table_boundaries (s : str) :
  let t := clean_table_text s in
  (PyStr.find "<table>" t = None ->
   __extract_html_table s = Raise IndexError)
  /\ (forall i,
         PyStr.find "<table>" t = Some i ->
         table_with_metadata t
         = Ok (before_first "</table>"
                 (before_first "<table>" (drop (i + 7) t)))
         /\ exists table, __extract_html_table s = Ok table)
  /\ (forall i j,
         section_bounds "<table>" "</table>" t = Some (i, j) ->
         table_with_metadata t = Ok (take j (drop (i + 7) t))
         /\ is_between "<table>" "</table>" t (take j (drop (i + 7) t))).
Proof.
  cbv zeta. split; [|split].
  - intros H. rewrite extract_html_table_eq, table_with_metadata_eq.
    by rewrite H.
  - intros i H. rewrite extract_html_table_eq, table_with_metadata_eq.
    rewrite H. split; [done|]. simpl. eauto.
  - intros i j H.
    by apply (section_between_bounds "<table>" "</table>").
Qed.

Lemma table_boundaries_witness :
  table_with_metadata (clean_table_text "<p> <table> <tr><td>a b</td></tr> </table> </p>")
  = Ok ("<tr><td>ab</td></tr>" : str).
Proof.
  exact (proj1 (proj2 (proj2 (table_boundaries
    "<p> <table> <tr><td>a b</td></tr> </table> </p>")) 3%nat 20%nat
    eq_refl)).
Defined.

(** C1, as stated, fails: this fragment has no ["</table>"], and the
    tokenizer returns its one-cell table. *)
Lemma table_boundaries_counterexample :
  PyStr.find "</table>" (clean_table_text "<table><tr><td>x</td></tr>") = None
  /\ __extract_html_table "<table><tr><td>x</td></tr>" = Ok [["x" : str]].
Proof. split; vm_compute; reflexivity. Qed.

(** * The usage series *)

Section usage_facts.

Lemma foldM_app {S A : Type} (body : S -> A -> result S) (st : S)
    (l1 l2 : list A) :
  foldM body st (l1 ++ l2) = (st' ← foldM body st l1; foldM body st' l2).
Proof.
  revert st. induction l1 as [|x l1 IH]; intros st; simpl; [done|].
  destruct (body st x) as [st1|e]; simpl; [apply IH|done].
Qed.

(** The loop's reading of the active time agrees with the three fields. *)
Lemma active_seconds_of_fields (cell : str) (v : Z) :
  active_seconds_of cell = Ok v <->
  exists hms, time_fields cell = Some hms /\ v = total_seconds hms.
Proof.
  unfold active_seconds_of, time_fields, getitem, PyInt.int.
  generalize (PyStr.split ":" cell). intros parts.
  destruct (parts !! 0%nat) as [p0|]; simpl;
    [|split; [done|by intros (? & ? & _)]].
  destruct (PyInt.parse p0) as [h|]; simpl;
    [|split; [done|by intros (? & ? & _)]].
  destruct (parts !! 1%nat) as [p1|]; simpl;
    [|split; [done|by intros (? & ? & _)]].
  destruct (PyInt.parse p1) as [m|]; simpl;
    [|split; [done|by intros (? & ? & _)]].
  destruct (parts !! 2%nat) as [p2|]; simpl;
    [|split; [done|by intros (? & ? & _)]].
  destruct (PyInt.parse p2) as [s|]; simpl;
    [|split; [done|by intros (? & ? & _)]].
  split.
  - intros [= <-]. exists (h, m, s). split; [done|]. simpl. lia.
  - intros (hms & [= <-] & ->). f_equal. simpl. lia.
Qed.

(** A row whose active time is longer than seven days leaves the state of
    the loop as it is. *)
Lemma usage_row_anomalous (st : usage_state) (r : list str) (cell : str)
    (secs : Z) :
  r !! 1%nat = Some cell -> (1 < length cell)%nat ->
  active_seconds_of cell = Ok secs -> 604800 < secs ->
  usage_row st r = Ok st.
Proof.
  intros Hr Hlen Hsecs Hbig. unfold usage_row.
  rewrite (getitem_Some _ _ _ Hr). simpl.
  destruct (Nat.ltb_spec 1 (length cell)); [|lia].
  rewrite Hsecs. simpl.
  destruct (Z.leb_spec secs (7 * 24 * 60 * 60)); [lia|done].
Qed.

(** What one round of the loop does when it does not raise. *)
Lemma usage_row_Ok (st st' : usage_state) (r : list str) :
  usage_row st r = Ok st' ->
  match kept_seconds r with
  | None => st' = st
  | Some secs =>
      exists d,
        row_date r d
        /\ st' = mkusage (dates st ++ [d])
                   (usage_hours st
                      ++ [whole_hours
                            (cumulative_usage st + secs * US_PER_SECOND)])
                   (cumulative_usage st + secs * US_PER_SECOND)
  end.
Proof.
  unfold usage_row, kept_seconds, kept_fields. intros H.
  apply bind_Ok in H as (cell & Hcell%getitem_Ok & H).
  rewrite Hcell. simpl.
  destruct (1 <? length cell)%nat; [|by injection H as <-].
  apply bind_Ok in H as (secs & Hsecs & H).
  apply active_seconds_of_fields in Hsecs as (hms & -> & ->). simpl.
  destruct (total_seconds hms <=? 7 * 24 * 60 * 60) eqn:E.
  - change (7 * 24 * 60 * 60) with 604800 in E. rewrite E. simpl.
    apply bind_Ok in H as (delta & Hdelta & H).
    apply bind_Ok in H as (cum & Hcum & H).
    apply bind_Ok in H as (d & Hd & H).
    apply bind_Ok in Hd as (c0 & Hc0%getitem_Ok & Hd).
    unfold timedelta_seconds, mk_timedelta in Hdelta.
    destruct (_ && _) in Hdelta; [|done]. injection Hdelta as <-.
    unfold td_add, mk_timedelta in Hcum.
    destruct (_ && _) in Hcum; [|done]. injection Hcum as <-.
    injection H as <-. exists d. split; [by exists c0|done].
  - change (7 * 24 * 60 * 60) with 604800 in E. rewrite E. simpl.
    by injection H as <-.
Qed.

(** The loop adds a date and a value together. *)
Lemma usage_loop_lengths (rows : list (list str)) (st st' : usage_state) :
  foldM usage_row st rows = Ok st' ->
  length (dates st) = length (usage_hours st) ->
  length (dates st') = length (usage_hours st').
Proof.
  revert st. induction rows as [|r rows IH]; intros st H Hlen; simpl in *.
  - by injection H as <-.
  - apply bind_Ok in H as (st1 & H1 & H).
    apply (IH _ H). apply usage_row_Ok in H1.
    destruct (kept_seconds r); [|by subst].
    destruct H1 as (d & _ & ->). simpl. rewrite !length_app. simpl. lia.
Qed.

Lemma whole_hours_seconds (c : Z) :
  whole_hours (c * US_PER_SECOND) = Z.quot c 3600.
Proof. unfold whole_hours, US_PER_SECOND. by rewrite Z.quot_mul. Qed.

(** The state after the loop, from the state before it: one date and one
    value per kept row, the value being the truncated running total. *)
Lemma usage_loop_Ok (rows : list (list str)) (st st' : usage_state) (c : Z) :
  cumulative_usage st = c * US_PER_SECOND ->
  foldM usage_row st rows = Ok st' ->
  exists ds,
    dates st' = dates st ++ ds
    /\ Forall2 row_date (List.filter is_kept rows) ds
    /\ usage_hours st'
       = usage_hours st
           ++ map (fun t => Z.quot t 3600)
                (running_totals c (omap kept_seconds rows)).
Proof.
  revert st c. induction rows as [|r rows IH]; intros st c Hc H; simpl in *.
  - injection H as <-. exists []. by rewrite !app_nil_r.
  - apply bind_Ok in H as (st1 & H1 & H).
    apply usage_row_Ok in H1. unfold is_kept.
    unfold kept_seconds in *.
    destruct (kept_fields r) as [hms|]; simpl in *.
    + destruct H1 as (d & Hd & ->).
      apply (IH _ (c + total_seconds hms)) in H as (ds & H1 & H2 & H3);
        [|simpl; lia].
      simpl in *. exists (d :: ds). rewrite H1, H3, Hc.
      rewrite <- !app_assoc. simpl. split; [done|]. split; [by constructor|].
      do 3 f_equal. rewrite <- whole_hours_seconds. f_equal. lia.
    + subst st1. by apply (IH _ c).
Qed.

Lemma nondecreasing_lookup (l : list Z) (i : nat) (a b : Z) :
  nondecreasing l -> l !! i = Some a -> l !! S i = Some b -> a <= b.
Proof.
  revert i. induction l as [|x l IH]; intros i Hl Ha Hb; [done|].
  destruct Hl as [Hx Hl]. destruct i as [|i].
  - simpl in Ha. injection Ha as ->.
    destruct l as [|y l]; [done|]. simpl in Hb. by injection Hb as ->.
  - simpl in Ha, Hb. by apply (IH i).
Qed.

Lemma running_totals_nondecreasing (l : list Z) (c : Z) :
  Forall (fun x => 0 <= x) l ->
  nondecreasing (map (fun t => Z.quot t 3600) (running_totals c l)).
Proof.
  intros Hl. revert c. induction Hl as [|x l Hx Hl IH]; intros c; [done|].
  simpl. split; [|apply IH].
  destruct Hl as [|y l Hy Hl]; [done|]. simpl.
  apply Z.quot_le_mono; lia.
Qed.

Lemma running_totals_nonneg (l : list Z) (c : Z) :
  0 <= c -> Forall (fun x => 0 <= x) l ->
  Forall (fun t => 0 <= t) (running_totals c l).
Proof.
  intros Hc Hl. revert c Hc.
  induction Hl as [|x l Hx Hl IH]; intros c Hc; simpl; constructor.
  - lia.
  - apply IH. lia.
Qed.

Lemma kept_seconds_nonneg (rows : list (list str)) :
  forallb nonnegative_fields rows = true ->
  Forall (fun x => 0 <= x) (omap kept_seconds rows).
Proof.
  induction rows as [|r rows IH]; simpl; [constructor|].
  rewrite andb_true_iff. intros [Hr Hrows].
  unfold kept_seconds, nonnegative_fields in *.
  destruct (kept_fields r) as [[[h m] s]|]; simpl; [|by apply IH].
  constructor; [|by apply IH].
  rewrite !andb_true_iff, !Z.leb_le in Hr. lia.
Qed.

(** The two sequences that [usage_of_table] returns. *)
Lemma usage_of_table_Ok (table : list (list str)) (ds : list date)
    (hs : list Z) :
  usage_of_table table = Ok (ds, hs) ->
  length ds = length hs
  /\ Forall2 row_date (List.filter is_kept (drop 2 table)) ds
  /\ hs = map (fun t => Z.quot t 3600)
            (running_totals 0 (omap kept_seconds (drop 2 table))).
Proof.
  unfold usage_of_table. intros H.
  apply bind_Ok in H as (st & Hst & [= <- <-]).
  pose proof (usage_loop_lengths _ _ _ Hst eq_refl) as Hlen.
  apply (usage_loop_Ok _ _ _ 0) in Hst as (ds & Hd & Hds & Hh); [|done].
  simpl in Hd, Hh. rewrite Hlen, Hd, Hh. done.
Qed.

End usage_facts.

Example sample_usage_table_tokenized :
  usage_info_section sample_report ≫= __extract_html_table
  = Ok sample_usage_table.
Proof. vm_compute. reflexivity. Qed.

(** C5. A data row whose active time is longer than 604 800 seconds is
    discarded entirely: the result is the one of the table without that
    row, so the row adds nothing to the running total and gives no point;
    and the points that are given come one per kept row of the other rows,
    each with the date of its own row and the running total up to that
    row.  Such a row is one with the active time "200:00:00" (720 000
    seconds). *)
Theorem anomalous_row_discarded
    (h1 h2 : list str) (pre post : list (list str)) (r : list str)
    (cell : str) (secs : Z) :
  r !! 1%nat = Some cell -> (1 < length cell)%nat ->
  active_seconds_of cell = Ok secs -> 604800 < secs ->
  usage_of_table (h1 :: h2 :: pre ++ r :: post)
  = usage_of_table (h1 :: h2 :: pre ++ post)
  /\ is_kept r = false
  /\ forall ds hs,
      usage_of_table (h1 :: h2 :: pre ++ r :: post) = Ok (ds, hs) ->
      Forall2 row_date (List.filter is_kept (pre ++ post)) ds
      /\ hs = map (fun t => Z.quot t 3600)
                (running_totals 0 (omap kept_seconds (pre ++ post))).
Proof.
  intros Hr Hlen Hsecs Hbig.
  assert (usage_of_table (h1 :: h2 :: pre ++ r :: post)
          = usage_of_table (h1 :: h2 :: pre ++ post)) as Heq.
  { unfold usage_of_table.
    change (drop 2 (h1 :: h2 :: pre ++ r :: post)) with (pre ++ r :: post).
    change (drop 2 (h1 :: h2 :: pre ++ post)) with (pre ++ post).
    rewrite !foldM_app.
    destruct (foldM usage_row usage_init pre) as [st|e]; [|done].
    cbn [mbind result_bind foldM].
    by rewrite (usage_row_anomalous st r cell secs). }
  split; [done|]. split.
  - unfold is_kept, kept_fields. rewrite Hr. simpl.
    destruct (Nat.ltb_spec 1 (length cell)); [|lia].
    apply active_seconds_of_fields in Hsecs as (hms & -> & ->). simpl.
    destruct (Z.leb_spec (total_seconds hms) 604800); [lia|done].
  - intros ds hs. rewrite Heq. intros (_ & Hds & Hhs)%usage_of_table_Ok.
    done.
Qed.

Lemma anomalous_row_discarded_witness :
  active_seconds_of "200:00:00" = Ok 720000
  /\ usage_of_table sample_usage_table
     = usage_of_table
         [ ["PERIOD" : str; "BATTERYDURATION" : str];
           ["" : str; "ACTIVE" : str];
           ["2018-01-05-2018-01-07" : str; "1:00:00" : str];
           ["2018-01-09" : str; "-" : str];
           ["2018-01-10" : str; "2:00:00" : str];
           ["2018-01-11" : str; "0:30:00" : str] ].
Proof.
  split; [reflexivity|].
  refine (proj1 (anomalous_row_discarded
    ["PERIOD" : str; "BATTERYDURATION" : str] ["" : str; "ACTIVE" : str]
    [ ["2018-01-05-2018-01-07" : str; "1:00:00" : str] ]
    [ ["2018-01-09" : str; "-" : str];
      ["2018-01-10" : str; "2:00:00" : str];
      ["2018-01-11" : str; "0:30:00" : str] ]
    ["2018-01-08" : str; "200:00:00" : str]
    "200:00:00" 720000 eq_refl _ eq_refl _)).
  - simpl. lia.
  - lia.
Defined.

(** C6 (as amended). Each kept row gives the value of the running total of
    active seconds so far divided by 3600 and truncated towards zero, the
    truncation being applied at every row; this is the floor whenever the
    running totals are not negative. *)
Theorem usage_hours_truncated
    (table : list (list str)) (ds : list date) (hs : list Z) :
  usage_of_table table = Ok (ds, hs) ->
  let totals := running_totals 0 (omap kept_seconds (drop 2 table)) in
  hs = map (fun t => Z.quot t 3600) totals
  /\ (Forall (fun t => 0 <= t) totals ->
      hs = map (fun t => t / 3600) totals).
Proof.
  intros H%usage_of_table_Ok. cbv zeta. destruct H as (_ & _ & ->).
  split; [done|].
  intros Hpos. apply map_ext_Forall.
  eapply Forall_impl; [exact Hpos|]. simpl.
  intros t Ht. by apply Z.quot_div_nonneg.
Qed.

Lemma usage_hours_truncated_witness :
  usage_of_table sample_usage_table
  = Ok ([mkdate 2018 1 6; mkdate 2018 1 10; mkdate 2018 1 11], [1; 3; 3])
  /\ [1; 3; 3]
     = map (fun t => Z.quot t 3600) (running_totals 0 [3600; 7200; 1800]).
Proof.
  split; [vm_compute; reflexivity|].
  refine (proj1 (usage_hours_truncated sample_usage_table
    [mkdate 2018 1 6; mkdate 2018 1 10; mkdate 2018 1 11] [1; 3; 3] _)).
  vm_compute. reflexivity.
Defined.

(** C6, as stated, fails on a negative running total: the row below is
    kept, its running total is -1800 seconds, whose floor in hours is -1,
    and the value given is 0. *)
Lemma usage_hours_floor_counterexample :
  usage_info_section negative_time_report ≫= __extract_html_table
  = Ok [ ["PERIOD" : str; "ACTIVE" : str]; ["" : str; "" : str];
         ["2021-06-20" : str; "-1:30:00" : str] ]
  /\ omap kept_seconds [ ["2021-06-20" : str; "-1:30:00" : str] ] = [-1800]
  /\ map (fun t => t / 3600) (running_totals 0 [-1800]) = [-1]
  /\ get_usage_data negative_time_report = Ok ([mkdate 2021 6 20], [0]).
Proof. repeat split; vm_compute; reflexivity. Qed.

(** C9. When the fields of every kept row are not negative, the values of
    the usage series never decrease from one entry to the next. *)
Theorem usage_hours_monotone
    (table : list (list str)) (ds : list date) (hs : list Z)
    (i : nat) (a b : Z) :
  usage_of_table table = Ok (ds, hs) ->
  forallb nonnegative_fields (drop 2 table) = true ->
  hs !! i = Some a -> hs !! S i = Some b -> a <= b.
Proof.
  intros H%usage_of_table_Ok Hnonneg. destruct H as (_ & _ & ->).
  apply nondecreasing_lookup.
  by apply running_totals_nondecreasing, kept_seconds_nonneg.
Qed.

Lemma usage_hours_monotone_witness : 1 <= 3.
Proof.
  refine (usage_hours_monotone sample_usage_table
    [mkdate 2018 1 6; mkdate 2018 1 10; mkdate 2018 1 11] [1; 3; 3]
    0 1 3 _ _ eq_refl eq_refl).
  - vm_compute. reflexivity.
  - vm_compute. reflexivity.
Defined.

(** * Further properties of the extractors *)

(** ** The sections *)

(** X1. [report.split(opening)[1].split(closing)[0]] raises [IndexError]
    exactly when the opening anchor is absent.  A missing closing anchor is
    not an error: if no further opening anchor follows either, the section
    is the whole rest of the document. *)
Theorem section_between_failure (opening closing report : str) :
  opening <> [] -> closing <> [] ->
  match PyStr.find opening report with
  | None => section_between opening closing report = Raise IndexError
  | Some i =>
      let rest := drop (i + length opening) report in
      exists s,
        section_between opening closing report = Ok s
        /\ (PyStr.find closing rest = None ->
            PyStr.find opening rest = None -> s = rest)
  end.
Proof.
  intros Ho Hc. rewrite section_between_eq by done.
  destruct (PyStr.find opening report) as [i|]; [|done].
  cbv zeta. eexists. split; [done|].
  intros H1 H2. unfold before_first. by rewrite H2, H1.
Qed.

Lemma section_between_failure_witness :
  usage_info_section "no heading here" = Raise IndexError.
Proof.
  refine (section_between_failure "Usage history" "Battery capacity history"
            "no heading here" _ _); discriminate.
Defined.

(** ** The usage series *)

(** X2. A data row whose active-time cell has at most one character (the
    ["-"] placeholder, or an empty cell) is discarded entirely: the result
    is the one of the table without that row, whatever its other cells
    hold. *)
Theorem placeholder_row_discarded
    (h1 h2 : list str) (pre post : list (list str)) (r : list str)
    (cell : str) :
  r !! 1%nat = Some cell -> (length cell <= 1)%nat ->
  usage_of_table (h1 :: h2 :: pre ++ r :: post)
  = usage_of_table (h1 :: h2 :: pre ++ post).
Proof.
  intros Hr Hlen. unfold usage_of_table.
  change (drop 2 (h1 :: h2 :: pre ++ r :: post)) with (pre ++ r :: post).
  change (drop 2 (h1 :: h2 :: pre ++ post)) with (pre ++ post).
  rewrite !foldM_app.
  destruct (foldM usage_row usage_init pre) as [st|e]; [|done].
  cbn [mbind result_bind foldM].
  unfold usage_row. rewrite (getitem_Some _ _ _ Hr).
  cbn [mbind result_bind].
  destruct (Nat.ltb_spec 1 (length cell)); [lia|done].
Qed.

Lemma placeholder_row_discarded_witness :
  usage_of_table
    [ ["PERIOD" : str; "ACTIVE" : str]; ["" : str; "" : str];
      ["not a date" : str; "-" : str];
      ["2018-01-10" : str; "2:00:00" : str] ]
  = usage_of_table
      [ ["PERIOD" : str; "ACTIVE" : str]; ["" : str; "" : str];
        ["2018-01-10" : str; "2:00:00" : str] ].
Proof.
  refine (placeholder_row_discarded
    ["PERIOD" : str; "ACTIVE" : str] ["" : str; "" : str] []
    [ ["2018-01-10" : str; "2:00:00" : str] ]
    ["not a date" : str; "-" : str] "-" eq_refl _).
  simpl. lia.
Defined.

(** X3. The two sequences of the usage series have the same length, which
    is the number of kept rows and at most the number of rows after the
    first two. *)
Theorem usage_series_lengths
    (table : list (list str)) (ds : list date) (hs : list Z) :
  usage_of_table table = Ok (ds, hs) ->
  length ds = length hs
  /\ length hs = length (List.filter is_kept (drop 2 table))
  /\ (length hs <= length table - 2)%nat.
Proof.
  intros (Hlen & Hds & _)%usage_of_table_Ok.
  apply Forall2_length in Hds.
  split; [done|]. split; [lia|].
  rewrite <- Hlen, <- Hds.
  etransitivity; [apply List.filter_length_le|].
  by rewrite length_drop.
Qed.

Lemma usage_series_lengths_witness :
  length [mkdate 2018 1 6; mkdate 2018 1 10; mkdate 2018 1 11]
  = length [1; 3; 3]
  /\ length [1; 3; 3]
     = length (List.filter is_kept (drop 2 sample_usage_table))
  /\ (length [1; 3; 3] <= length sample_usage_table - 2)%nat.
Proof.
  refine (usage_series_lengths sample_usage_table
    [mkdate 2018 1 6; mkdate 2018 1 10; mkdate 2018 1 11] [1; 3; 3] _).
  vm_compute. reflexivity.
Defined.

Section usage_steps.

Lemma kept_seconds_le (r : list str) (x : Z) :
  kept_seconds r = Some x -> x <= 604800.
Proof.
  unfold kept_seconds, kept_fields.
  destruct (r !! 1%nat) as [cell|]; simpl; [|done].
  destruct (1 <? length cell)%nat; [|done].
  destruct (time_fields cell) as [hms|]; simpl; [|done].
  destruct (Z.leb_spec (total_seconds hms) 604800); [|done].
  simpl. by intros [= <-].
Qed.

Lemma omap_kept_seconds_le (rows : list (list str)) :
  Forall (fun x => x <= 604800) (omap kept_seconds rows).
Proof.
  induction rows as [|r rows IH]; simpl; [constructor|].
  destruct (kept_seconds r) as [x|] eqn:E; [|done].
  constructor; [by eapply kept_seconds_le|done].
Qed.

Lemma quot_step (t x : Z) :
  x <= 604800 -> Z.quot (t + x) 3600 <= Z.quot t 3600 + 168.
Proof. intros Hx. Z.quot_rem_to_equations. lia. Qed.

(** Two neighbours of the truncated running totals are the totals before
    and after one of the summands. *)
Lemma running_totals_step (l : list Z) (c : Z) (i : nat) (a b : Z) :
  map (fun t => Z.quot t 3600) (running_totals c l) !! i = Some a ->
  map (fun t => Z.quot t 3600) (running_totals c l) !! S i = Some b ->
  exists t x, x ∈ l /\ a = Z.quot t 3600 /\ b = Z.quot (t + x) 3600.
Proof.
  revert c i. induction l as [|y l IH]; intros c i Ha Hb; [done|].
  destruct i as [|i].
  - destruct l as [|z l]; [done|]. simpl in Ha, Hb.
    injection Ha as <-. injection Hb as <-.
    exists (c + y), z. split; [|done]. apply list_elem_of_In. simpl. auto.
  - simpl in Ha, Hb. destruct (IH _ _ Ha Hb) as (t & x & Hx & -> & ->).
    exists t, x. split; [|done]. by apply list_elem_of_further.
Qed.

End usage_steps.

(** X4. No value of the usage series is more than 168 hours above the one
    before it, and the first one is at most 168: a kept row adds at most
    one week. *)
Theorem usage_step_bound
    (table : list (list str)) (ds : list date) (hs : list Z) :
  usage_of_table table = Ok (ds, hs) ->
  (forall a, hs !! 0%nat = Some a -> a <= 168)
  /\ (forall i a b, hs !! i = Some a -> hs !! S i = Some b -> b <= a + 168).
Proof.
  intros (_ & _ & ->)%usage_of_table_Ok.
  pose proof (omap_kept_seconds_le (drop 2 table)) as Hle.
  split.
  - intros a Ha. destruct (omap kept_seconds (drop 2 table)) as [|x l];
      [done|].
    simpl in Ha. injection Ha as <-. inversion_clear Hle as [|? ? Hx _].
    pose proof (quot_step 0 x Hx) as H. by rewrite Z.add_0_l in *.
  - intros i a b Ha Hb.
    destruct (running_totals_step _ _ _ _ _ Ha Hb) as (t & x & Hx & -> & ->).
    apply quot_step. rewrite Forall_forall in Hle. by apply Hle.
Qed.

Lemma usage_step_bound_witness : 3 <= 1 + 168.
Proof.
  refine (proj2 (usage_step_bound sample_usage_table
    [mkdate 2018 1 6; mkdate 2018 1 10; mkdate 2018 1 11] [1; 3; 3] _)
    0%nat 1 3 eq_refl eq_refl).
  vm_compute. reflexivity.
Defined.

(** X5. A data row with fewer than two cells, met after rows that the loop
    handles without an exception, makes [usage_of_table] raise
    [IndexError]: its column 1 is read before anything else. *)
Theorem short_usage_row_raises
    (h1 h2 : list str) (pre post : list (list str)) (r : list str)
    (res : list date * list Z) :
  usage_of_table (h1 :: h2 :: pre) = Ok res -> (length r < 2)%nat ->
  usage_of_table (h1 :: h2 :: pre ++ r :: post) = Raise IndexError.
Proof.
  unfold usage_of_table.
  change (drop 2 (h1 :: h2 :: pre ++ r :: post)) with (pre ++ r :: post).
  change (drop 2 (h1 :: h2 :: pre)) with pre.
  intros H Hlen. rewrite foldM_app.
  destruct (foldM usage_row usage_init pre) as [st|e]; [|done].
  cbn [mbind result_bind foldM]. unfold usage_row, getitem.
  by rewrite (lookup_ge_None_2 r 1) by lia.
Qed.

Lemma short_usage_row_raises_witness :
  usage_of_table
    [ ["PERIOD" : str; "ACTIVE" : str]; ["" : str; "" : str];
      ["2018-01-10" : str; "2:00:00" : str]; ["2018-01-11" : str] ]
  = Raise IndexError.
Proof.
  refine (short_usage_row_raises
    ["PERIOD" : str; "ACTIVE" : str] ["" : str; "" : str]
    [ ["2018-01-10" : str; "2:00:00" : str] ] []
    ["2018-01-11" : str] ([mkdate 2018 1 10], [2]) _ _).
  - vm_compute. reflexivity.
  - simpl. lia.
Defined.

(** ** The capacity series *)

Section capacity_facts.

Lemma capacity_row_Ok (d0 d1 : list date) (c0 c1 : list Z) (r : list str) :
  capacity_row (d0, c0) r = Ok (d1, c1) <->
  exists d c,
    row_date r d /\ row_capacity r c /\ d1 = d0 ++ [d] /\ c1 = c0 ++ [c].
Proof.
  unfold capacity_row, row_date, row_capacity, getitem. split.
  - intros H.
    apply bind_Ok in H as (d & (cell0 & H0 & Hd)%bind_Ok & H).
    apply bind_Ok in H as (c & (cell1 & H1 & Hc)%bind_Ok & H).
    injection H as <- <-.
    destruct (r !! 0%nat) as [x0|]; [injection H0 as ->|done].
    destruct (r !! 1%nat) as [x1|]; [injection H1 as ->|done].
    exists d, c. eauto 10.
  - intros (d & c & (cell0 & -> & Hd) & (cell1 & -> & Hc) & -> & ->).
    simpl. rewrite Hd. simpl. by rewrite Hc.
Qed.

Lemma capacity_loop_Ok (rows : list (list str)) (d0 d1 : list date)
    (c0 c1 : list Z) :
  foldM capacity_row (d0, c0) rows = Ok (d1, c1) <->
  exists ds cs,
    d1 = d0 ++ ds /\ c1 = c0 ++ cs
    /\ Forall2 row_date rows ds /\ Forall2 row_capacity rows cs.
Proof.
  revert d0 c0. induction rows as [|r rows IH]; intros d0 c0; cbn [foldM].
  - split.
    + intros [= <- <-]. exists [], []. by rewrite !app_nil_r.
    + intros (ds & cs & -> & -> & ->%Forall2_nil_inv_l & ->%Forall2_nil_inv_l).
      by rewrite !app_nil_r.
  - split.
    + intros H. apply bind_Ok in H as ([d' c'] & H1 & H).
      apply capacity_row_Ok in H1 as (d & c & Hd & Hc & -> & ->).
      apply IH in H as (ds & cs & -> & -> & Hds & Hcs).
      exists (d :: ds), (c :: cs). rewrite <- !app_assoc.
      repeat split; by try constructor.
    + intros (ds & cs & -> & -> & Hds & Hcs).
      destruct ds as [|d ds]; [by apply Forall2_nil_inv_r in Hds|].
      destruct cs as [|c cs]; [by apply Forall2_nil_inv_r in Hcs|].
      apply Forall2_cons_1 in Hds as [Hd Hds].
      apply Forall2_cons_1 in Hcs as [Hc Hcs].
      assert (capacity_row (d0, c0) r = Ok (d0 ++ [d], c0 ++ [c])) as ->.
      { apply capacity_row_Ok. eauto 10. }
      cbn [mbind result_bind]. apply IH. exists ds, cs. rewrite <- !app_assoc. done.
Qed.

End capacity_facts.

(** X6. The capacity series has exactly one point per row after the header
    row, in order and without any filtering: [capacity_of_table] returns
    [(ds, cs)] exactly when [ds] are the dates that column 0 of these rows
    reads as and [cs] the integers that column 1 reads as.  A single row
    that lacks a cell, a date or a digit makes the whole call fail. *)
Theorem capacity_series_points
    (table : list (list str)) (ds : list date) (cs : list Z) :
  capacity_of_table table = Ok (ds, cs) <->
  Forall2 row_date (drop 1 table) ds
  /\ Forall2 row_capacity (drop 1 table) cs.
Proof.
  unfold capacity_of_table. rewrite capacity_loop_Ok. split.
  - by intros (ds' & cs' & -> & -> & H1 & H2).
  - intros [H1 H2]. by exists ds, cs.
Qed.

(** ** The battery information *)

Section battery_facts.

Lemma filter_nil_existsb {A : Type} (f : A -> bool) (l : list A) :
  List.filter f l = [] <-> existsb f l = false.
Proof.
  induction l as [|x l IH]; simpl; [done|].
  destruct (f x); simpl; [split; done|done].
Qed.

(** [__str_to_int] succeeds exactly on the texts that read as an
    integer. *)
Lemma str_to_int_Ok_iff (s : str) :
  (exists n, __str_to_int s = Ok n) <-> converts s = true.
Proof.
  rewrite str_to_int_eq. unfold converts, has_digit.
  destruct (forallb PyStr.isdecimal (List.filter PyStr.isdigit s)) eqn:E;
    cbn [andb]; [|rewrite andb_false_r; split; [by intros [? ?]|done]].
  destruct (_ <=? _); cbn [andb];
    [|rewrite andb_false_r; split; [by intros [? ?]|done]].
  rewrite !andb_true_r. unfold digits_to_integer_spec.
  rewrite (filter_isdigit_decimal _ E).
  pose proof (filter_nil_existsb PyStr.isdigit s) as H.
  destruct (List.filter PyStr.isdigit s) as [|c ds].
  - rewrite (proj1 H eq_refl). split; [by intros [? ?]|done].
  - destruct (existsb PyStr.isdigit s);
      [|by destruct H as [_ H]; discriminate H].
    split; eauto.
Qed.

Lemma mapM_all_Ok {A B : Type} (f : A -> result B) (l : list A) :
  (exists k, mapM f l = Ok k) <-> Forall (fun x => exists y, f x = Ok y) l.
Proof.
  split.
  - intros [k Hk%mapM_Ok_Forall2].
    induction Hk; constructor; eauto.
  - induction 1 as [|x l [y Hy] _ [k Hk]]; simpl; [by exists []|].
    exists (y :: k). rewrite Hy. simpl. by rewrite Hk.
Qed.

Lemma int_column_Ok_iff (table : list (list str)) (k : nat) (r : list str) :
  table !! k = Some r ->
  (exists col, int_column table k = Ok col)
  <-> forallb converts (drop 1 r) = true.
Proof.
  intros Hk. unfold int_column. rewrite (getitem_Some _ _ _ Hk).
  cbn [mbind result_bind]. rewrite mapM_all_Ok, forallb_forall, Forall_forall.
  split; intros H x Hx.
  - apply str_to_int_Ok_iff, H. by apply list_elem_of_In.
  - apply str_to_int_Ok_iff, H. by apply list_elem_of_In.
Qed.

End battery_facts.



(** ** [__str_to_int] *)

Section str_to_int_facts.

Lemma decimal_fold_acc (ds : str) (acc : Z) :
  fold_left (fun n c => 10 * n + PyInt.digit_value c) ds acc
  = acc * 10 ^ Z.of_nat (length ds) + decimal_value ds.
Proof.
  unfold decimal_value. revert acc.
  induction ds as [|c ds IH]; intros acc; [simpl; lia|].
  cbn [fold_left length]. rewrite IH, (IH (10 * 0 + _)).
  rewrite Nat2Z.inj_succ, Z.pow_succ_r by lia. ring.
Qed.

Lemma decimal_value_app (a b : str) :
  decimal_value (a ++ b)
  = decimal_value a * 10 ^ Z.of_nat (length b) + decimal_value b.
Proof.
  unfold decimal_value at 1. rewrite fold_left_app.
  fold (decimal_value a). apply decimal_fold_acc.
Qed.

End str_to_int_facts.

(** X8. [__str_to_int] reads a text piece by piece: a piece without a
    character that [str.isdigit] accepts does not count, and when [a] and
    [b] both read as integers, [a ++ b] reads as the integer of [a] shifted
    left by as many decimal places as [b] has digits, plus the integer of
    [b] (so ["1.109"] gives 1 * 1000 + 109), unless the two together have
    more than 4300 digits, which raises [ValueError]. *)
Theorem str_to_int_app (a b : str) :
  (has_digit b = false -> __str_to_int (a ++ b) = __str_to_int a)
  /\ (has_digit a = false -> __str_to_int (a ++ b) = __str_to_int b)
  /\ (forall va vb,
         __str_to_int a = Ok va -> __str_to_int b = Ok vb ->
         __str_to_int (a ++ b)
         = if Z.of_nat (length (List.filter PyStr.isdigit (a ++ b)))
              <=? PyInt.MAX_STR_DIGITS
           then Ok (va * 10 ^ Z.of_nat (length (List.filter PyStr.isdigit b))
                    + vb)
           else Raise ValueError).
Proof.
  repeat split.
  - intros Hb%filter_nil_existsb. rewrite !str_to_int_eq.
    unfold digits_to_integer_spec. rewrite !List.filter_app, Hb.
    assert (List.filter PyStr.isdecimal b = []) as ->.
    { apply filter_nil_existsb. apply filter_nil_existsb in Hb.
      destruct (existsb PyStr.isdecimal b) eqn:E; [|done].
      apply existsb_exists in E as (x & Hx & Hd%isdecimal_isdigit).
      assert (existsb PyStr.isdigit b = true) as H
        by (apply existsb_exists; eauto).
      congruence. }
    by rewrite !app_nil_r.
  - intros Ha%filter_nil_existsb. rewrite !str_to_int_eq.
    unfold digits_to_integer_spec. rewrite !List.filter_app, Ha.
    assert (List.filter PyStr.isdecimal a = []) as ->.
    { apply filter_nil_existsb. apply filter_nil_existsb in Ha.
      destruct (existsb PyStr.isdecimal a) eqn:E; [|done].
      apply existsb_exists in E as (x & Hx & Hd%isdecimal_isdigit).
      assert (existsb PyStr.isdigit a = true) as H
        by (apply existsb_exists; eauto).
      congruence. }
    done.
  - intros va vb. rewrite !str_to_int_eq.
    rewrite (List.filter_app PyStr.isdigit a b), forallb_app.
    destruct (forallb PyStr.isdecimal (List.filter PyStr.isdigit a)) eqn:Ea;
      [|done].
    destruct (forallb PyStr.isdecimal (List.filter PyStr.isdigit b)) eqn:Eb;
      [|by rewrite andb_false_l].
    cbn [andb].
    destruct (Z.of_nat (length (List.filter PyStr.isdigit a)) <=? _); [|done].
    destruct (Z.of_nat (length (List.filter PyStr.isdigit b)) <=? _); [|done].
    unfold digits_to_integer_spec. rewrite List.filter_app.
    rewrite (filter_isdigit_decimal _ Ea), (filter_isdigit_decimal _ Eb).
    destruct (List.filter PyStr.isdigit a) as [|x xs] eqn:Fa; [done|].
    destruct (List.filter PyStr.isdigit b) as [|y ys] eqn:Fb; [done|].
    intros [= <-] [= <-].
    destruct (_ <=? _); [|done]. cbn [app]. f_equal.
    apply (decimal_value_app (x :: xs) (y :: ys)).
Qed.

Lemma str_to_int_app_witness :
  __str_to_int ("1." ++ "109") = Ok (1 * 10 ^ 3 + 109).
Proof.
  exact (proj2 (proj2 (str_to_int_app "1." "109")) 1 109 eq_refl eq_refl).
Defined.

(** ** The clean-up of the table text *)

Section clean_facts.

Import PyStr.

Lemma filter_id_Forall {A : Type} (f : A -> bool) (l : list A) :
  Forall (fun x => f x = true) l -> List.filter f l = l.
Proof.
  induction 1 as [|x l Hx _ IH]; simpl; [done|]. by rewrite Hx, IH.
Qed.

(** Replacing one character by nothing is filtering it out. *)
Lemma replace_char_filter (c : ascii) (s : str) :
  replace [c] [] s = List.filter (fun x => negb (Ascii.eqb c x)) s.
Proof.
  remember (length s) as n eqn:Hn. revert s Hn.
  induction n as [n IH] using lt_wf_ind. intros s ->.
  rewrite replace_unfold by done.
  assert (forall i,
             (forall j, (j < i)%nat -> startswith [c] (drop j s) = false) ->
             List.filter (fun x => negb (Ascii.eqb c x)) (take i s)
             = take i s) as Hkeep.
  { intros i Hi. apply filter_id_Forall.
    eapply Forall_impl; [by apply take_without_char|]. simpl.
    intros x Hx. apply negb_true_iff.
    destruct (Ascii.eqb_spec c x); congruence. }
  destruct (find [c] s) as [i|] eqn:F.
  - pose proof (find_Some _ _ _ F) as (_ & Hlen & Hlt).
    rewrite (find_Some_split _ _ _ F) at 3.
    rewrite !List.filter_app, (Hkeep i Hlt). cbn [List.filter app].
    rewrite Ascii.eqb_refl. cbn [negb]. f_equal.
    eapply IH; [|done]. rewrite length_drop. simpl in *. lia.
  - pose proof (Hkeep (length s)) as H. rewrite firstn_all in H.
    symmetry. apply H. intros j _. by apply find_None.
Qed.

Lemma clean_table_text_insert (s1 s2 : str) (w : ascii) :
  w = " "%char \/ w = CR \/ w = LF ->
  clean_table_text (s1 ++ w :: s2) = clean_table_text (s1 ++ s2).
Proof.
  intros Hw. unfold clean_table_text. f_equal.
  change (replace " " "") with (replace [" "%char] []).
  change (replace [?c] "") with (replace [c] []).
  rewrite !replace_char_filter, !List.filter_app.
  cbn [List.filter].
  destruct Hw as [-> | [-> | ->]]; reflexivity.
Qed.

End clean_facts.

(** X9. White space is insignificant everywhere, tags and markers
    included: a space, a carriage return or a line feed put anywhere into
    the text does not change what [__extract_html_table] returns. *)
Theorem whitespace_insignificant (s1 s2 : str) (w : ascii) :
  w = " "%char \/ w = CR \/ w = LF ->
  __extract_html_table (s1 ++ w :: s2) = __extract_html_table (s1 ++ s2).
Proof.
  intros Hw. unfold __extract_html_table.
  by rewrite clean_table_text_insert.
Qed.

Lemma whitespace_insignificant_witness :
  __extract_html_table ("<ta" ++ " "%char :: "ble><tr><td>x</td></tr></table>")
  = __extract_html_table ("<ta" ++ "ble><tr><td>x</td></tr></table>").
Proof.
  apply whitespace_insignificant. by left.
Defined.

(** ** [__extract_date] *)

Section extract_date_facts.

Lemma extract_date_range_eq (s : str) :
  separator_count s = 5 -> __extract_date s = range_date_spec s.
Proof.
  intros H. unfold __extract_date, range_date_spec.
  rewrite count_dash, H. simpl.
  destruct (strptime (take 10 s)) as [d1|e1] eqn:E1; simpl; [|done].
  destruct (strptime (take 10 (drop 11 s))) as [d2|e2] eqn:E2; simpl; [|done].
  apply midpoint_run; by eapply strptime_valid.
Qed.

Lemma extract_date_single_eq (s : str) :
  separator_count s = 2 -> __extract_date s = strptime s.
Proof. intros H. unfold __extract_date. by rewrite count_dash, H. Qed.

Lemma digit_char_code (k : Z) :
  nat_of_ascii (digit_char k) = Z.to_nat (48 + k mod 10).
Proof.
  unfold digit_char. apply nat_ascii_embedding.
  pose proof (Z.mod_pos_bound k 10 ltac:(lia)). lia.
Qed.

Lemma digit_char_isdecimal (k : Z) : PyStr.isdecimal (digit_char k) = true.
Proof.
  apply isdecimal_range. rewrite digit_char_code.
  pose proof (Z.mod_pos_bound k 10 ltac:(lia)). lia.
Qed.

Lemma digit_char_value (k : Z) : PyInt.digit_value (digit_char k) = k mod 10.
Proof.
  unfold PyInt.digit_value. rewrite digit_char_code.
  pose proof (Z.mod_pos_bound k 10 ltac:(lia)). lia.
Qed.

Lemma digit_char_not_dash (k : Z) : Ascii.eqb "-" (digit_char k) = false.
Proof.
  rewrite Ascii.eqb_sym. apply isdecimal_not_char; [|done].
  apply digit_char_isdecimal.
Qed.

Lemma match_year_four_digits (y : Z) (rest : str) :
  0 <= y <= 9999 -> match_year (four_digits y ++ rest) = Some (y, rest).
Proof.
  intros Hy. unfold four_digits, match_year. cbn [app].
  rewrite !digit_char_isdecimal, !digit_char_value. cbn [andb].
  do 2 f_equal. Z.div_mod_to_equations. lia.
Qed.

Lemma match_month_two_digits (m : Z) (rest : str) :
  1 <= m <= 12 -> match_month (two_digits m ++ rest) = Some (m, rest).
Proof.
  intros Hm.
  assert (m = 1 \/ m = 2 \/ m = 3 \/ m = 4 \/ m = 5 \/ m = 6 \/ m = 7
          \/ m = 8 \/ m = 9 \/ m = 10 \/ m = 11 \/ m = 12) as Hcases by lia.
  repeat (destruct Hcases as [-> | Hcases]); try subst m; reflexivity.
Qed.

Lemma match_day_two_digits (d : Z) :
  1 <= d <= 31 -> match_day (two_digits d) = Some (d, []).
Proof.
  intros Hd.
  assert (exists n, d = Z.of_nat n /\ (1 <= n <= 31)%nat) as (n & -> & Hn).
  { exists (Z.to_nat d). lia. }
  do 32 (destruct n as [|n]; [first [lia | reflexivity]|]). lia.
Qed.

Lemma days_in_month_le_31 (y m : Z) : days_in_month y m <= 31.
Proof.
  unfold days_in_month. destruct (_ && _); [lia|].
  unfold DAYS_IN_MONTH.
  destruct m as [|p|p]; try lia.
  do 4 (destruct p as [p|p|]; try lia).
Qed.

(** Reading back the text of a date gives the date. *)
Lemma strptime_isoformat (d : date) :
  valid d = true -> strptime (isoformat d) = Ok d.
Proof.
  intros Hv. pose proof Hv as Hv'. destruct d as [y m dd].
  unfold valid, MINYEAR, MAXYEAR in Hv'. simpl in Hv'.
  rewrite !andb_true_iff, !Z.leb_le in Hv'.
  destruct Hv' as (((((Hy1 & Hy2) & Hm1) & Hm2) & Hd1) & Hd2).
  pose proof (days_in_month_le_31 y m).
  unfold strptime, isoformat. cbn [year month day].
  cbn [app list_ascii_of_string].
  rewrite match_year_four_digits by lia. cbn [mbind option_bind].
  cbn [match_dash Ascii.eqb Bool.eqb]. cbn [mbind option_bind].
  rewrite match_month_two_digits by lia. cbn [mbind option_bind].
  cbn [match_dash Ascii.eqb Bool.eqb]. cbn [mbind option_bind].
  rewrite match_day_two_digits by lia. cbn [mbind option_bind].
  by rewrite Hv.
Qed.

Lemma separator_count_isoformat (d : date) :
  separator_count (isoformat d) = 2.
Proof.
  unfold separator_count, isoformat, four_digits, two_digits.
  cbn [app list_ascii_of_string List.filter].
  rewrite !digit_char_not_dash. reflexivity.
Qed.

Lemma separator_count_app (a b : str) :
  separator_count (a ++ b) = separator_count a + separator_count b.
Proof.
  unfold separator_count. rewrite List.filter_app, length_app. lia.
Qed.

Lemma length_isoformat (d : date) : length (isoformat d) = 10%nat.
Proof. done. Qed.

End extract_date_facts.

(** X10. The only exceptions of [__extract_date] are the [ValueError] of
    [strptime], on a text with two or five separators, and the
    [UnboundLocalError] of a text with any other number of them; the date
    arithmetic of the range form never overflows. *)
Theorem extract_date_errors (s : str) (e : exn) :
  __extract_date s = Raise e ->
  (e = ValueError /\ (separator_count s = 2 \/ separator_count s = 5))
  \/ (e = UnboundLocalError
      /\ separator_count s <> 2 /\ separator_count s <> 5).
Proof.
  destruct (Z.eq_dec (separator_count s) 2) as [H2|H2].
  { rewrite extract_date_single_eq by done.
    intros ->%strptime_error. left. auto. }
  destruct (Z.eq_dec (separator_count s) 5) as [H5|H5].
  { rewrite extract_date_range_eq by done. unfold range_date_spec.
    destruct (strptime (take 10 s)) as [d1|e1] eqn:E1.
    - destruct (strptime (take 10 (drop 11 s))) as [d2|e2] eqn:E2; [done|].
      intros [= <-]. apply strptime_error in E2. left. auto.
    - intros [= <-]. apply strptime_error in E1. left. auto. }
  unfold __extract_date. rewrite count_dash.
  destruct (Z.eqb_spec (separator_count s) 2); [done|].
  destruct (Z.eqb_spec (separator_count s) 5); [done|].
  intros [= <-]. right. auto.
Qed.

Lemma extract_date_errors_witness :
  (ValueError = ValueError
   /\ (separator_count "2018-02-30" = 2 \/ separator_count "2018-02-30" = 5))
  \/ (ValueError = UnboundLocalError
      /\ separator_count "2018-02-30" <> 2
      /\ separator_count "2018-02-30" <> 5).
Proof.
  apply (extract_date_errors "2018-02-30" ValueError).
  vm_compute. reflexivity.
Defined.

(** X11. Reading back what the report writes: for a date that exists,
    [__extract_date] of its [YYYY-MM-DD] text is that date, and
    [__extract_date] of two such texts joined by ['-'] is the date half-way
    from the first to the second, the half-day dropped. *)
Theorem extract_date_isoformat (d1 d2 : date) :
  valid d1 = true -> valid d2 = true ->
  __extract_date (isoformat d1) = Ok d1
  /\ __extract_date (isoformat d1 ++ "-" ++ isoformat d2)
     = Ok (midpoint_spec d1 d2).
Proof.
  intros H1 H2. split.
  - rewrite extract_date_single_eq by apply separator_count_isoformat.
    by apply strptime_isoformat.
  - rewrite extract_date_range_eq; cycle 1.
    { rewrite !separator_count_app, !separator_count_isoformat. done. }
    unfold range_date_spec.
    assert (take 10 (isoformat d1 ++ ("-" : str) ++ isoformat d2)
            = isoformat d1) as -> by reflexivity.
    assert (take 10 (drop 11 (isoformat d1 ++ ("-" : str) ++ isoformat d2))
            = isoformat d2) as -> by reflexivity.
    by rewrite !strptime_isoformat.
Qed.

Lemma extract_date_isoformat_witness :
  __extract_date "2018-01-05" = Ok (mkdate 2018 1 5)
  /\ __extract_date "2018-01-05-2018-01-08" = Ok (mkdate 2018 1 6).
Proof.
  exact (extract_date_isoformat (mkdate 2018 1 5) (mkdate 2018 1 8)
           eq_refl eq_refl).
Defined.

(** ** The calendar *)

Section calendar_facts.

Lemma holds_from_spec (test : Z -> bool) (k : nat) (n i : Z) :
  holds_from test k n = true -> n <= i < n + Z.of_nat k -> test i = true.
Proof.
  revert n. induction k as [|k IH]; intros n H Hi; [lia|].
  simpl in H. apply andb_true_iff in H as [H0 H].
  destruct (Z.eq_dec i n) as [->|]; [done|].
  apply (IH (n + 1)); [done|lia].
Qed.

Lemma month_day_of_ok (leapyear : bool) (n : Z) :
  0 <= n < 365 + (if leapyear then 1 else 0) ->
  month_day_ok leapyear n = true.
Proof.
  intros Hn. destruct leapyear.
  - apply (holds_from_spec _ 366 0); [by vm_compute|lia].
  - apply (holds_from_spec _ 365 0); [by vm_compute|lia].
Qed.

(** The leap years, from the position of the year in the 400-year cycle. *)
Lemma is_leap_parts (q a b c : Z) :
  0 <= a <= 3 -> 0 <= b <= 24 -> 0 <= c <= 3 ->
  is_leap (q * 400 + 1 + a * 100 + b * 4 + c)
  = (c =? 3) && (negb (b =? 24) || (a =? 3)).
Proof.
  intros Ha Hb Hc. unfold is_leap.
  destruct (Z.eqb_spec c 3), (Z.eqb_spec b 24), (Z.eqb_spec a 3);
    repeat match goal with
      | |- context [?x mod ?y =? 0] => destruct (Z.eqb_spec (x mod y) 0)
      end; simpl; try done; exfalso;
    Z.div_mod_to_equations; lia.
Qed.

Lemma days_before_year_parts (q a b c : Z) :
  0 <= a <= 3 -> 0 <= b <= 24 -> 0 <= c <= 3 ->
  days_before_year (q * 400 + 1 + a * 100 + b * 4 + c)
  = q * 146097 + a * 36524 + b * 1461 + c * 365.
Proof.
  intros Ha Hb Hc. unfold days_before_year.
  Z.div_mod_to_equations. lia.
Qed.

End calendar_facts.

Section ordinal_facts.

Lemma fromordinal_unfold (n : Z) :
  fromordinal n =
    let n0 := n - 1 in
    let q := n0 / 146097 in
    let r := n0 mod 146097 in
    let a := r / 36524 in
    let r1 := r mod 36524 in
    let b := r1 / 1461 in
    let r2 := r1 mod 1461 in
    let c := r2 / 365 in
    let r3 := r2 mod 365 in
    let y := q * 400 + 1 + a * 100 + b * 4 + c in
    if (c =? 4) || (a =? 4) then mkdate (y - 1) 12 31
    else
      let leapyear := (c =? 3) && (negb (b =? 24) || (a =? 3)) in
      mkdate y (month_day_of r3 leapyear).1 (month_day_of r3 leapyear).2.
Proof.
  unfold fromordinal, month_day_of, DI400Y, DI100Y, DI4Y. cbv zeta.
  destruct (_ || _); [done|].
  by destruct (_ <? _).
Qed.

(** The parts of [date.fromordinal(n)] form a date of the calendar, and its
    ordinal is [n] again. *)
Lemma fromordinal_spec (n : Z) :
  1 <= n ->
  let d := fromordinal n in
  toordinal d = n
  /\ 1 <= year d /\ (n <= MAXORDINAL -> year d <= 9999)
  /\ 1 <= month d <= 12
  /\ 1 <= day d <= days_in_month (year d) (month d).
Proof.
  intros Hn. cbv zeta. rewrite fromordinal_unfold. cbv zeta.
  pose proof (Z.div_mod (n - 1) 146097 ltac:(lia)) as E0.
  pose proof (Z.mod_pos_bound (n - 1) 146097 ltac:(lia)) as B0.
  assert (0 <= (n - 1) / 146097) as Q0 by (apply Z.div_pos; lia).
  set (q := (n - 1) / 146097) in *. set (r := (n - 1) mod 146097) in *.
  pose proof (Z.div_mod r 36524 ltac:(lia)) as E1.
  pose proof (Z.mod_pos_bound r 36524 ltac:(lia)) as B1.
  set (a := r / 36524) in *. set (r1 := r mod 36524) in *.
  pose proof (Z.div_mod r1 1461 ltac:(lia)) as E2.
  pose proof (Z.mod_pos_bound r1 1461 ltac:(lia)) as B2.
  set (b := r1 / 1461) in *. set (r2 := r1 mod 1461) in *.
  pose proof (Z.div_mod r2 365 ltac:(lia)) as E3.
  pose proof (Z.mod_pos_bound r2 365 ltac:(lia)) as B3.
  set (c := r2 / 365) in *. set (r3 := r2 mod 365) in *.
  clearbody q r a r1 b r2 c r3.
  assert (0 <= a <= 4) as Ha by lia.
  assert (0 <= b <= 24) as Hb by lia.
  assert (0 <= c <= 4) as Hc by lia.
  destruct ((c =? 4) || (a =? 4)) eqn:Hlast.
  - (* the last day of a leap year *)
    unfold toordinal, days_in_month, days_before_month. cbn [year month day].
    assert (exists a' b',
               0 <= a' <= 3 /\ 0 <= b' <= 24 /\ (b' = 24 -> a' = 3)
               /\ q * 400 + 1 + a * 100 + b * 4 + c - 1
                  = q * 400 + 1 + a' * 100 + b' * 4 + 3
               /\ n = q * 146097 + a' * 36524 + b' * 1461 + 3 * 365 + 366)
      as (a' & b' & Ha' & Hb' & Hab & -> & ->).
    { apply orb_true_iff in Hlast as [Hc4%Z.eqb_eq|Ha4%Z.eqb_eq].
      - exists a, b. lia.
      - exists 3, 24. lia. }
    rewrite is_leap_parts, days_before_year_parts by lia.
    assert ((3 =? 3) && (negb (b' =? 24) || (a' =? 3)) = true) as ->.
    { destruct (Z.eqb_spec b' 24), (Z.eqb_spec a' 3); try done. lia. }
    simpl. unfold MAXORDINAL. lia.
  - apply orb_false_iff in Hlast as [Hc4%Z.eqb_neq Ha4%Z.eqb_neq].
    unfold toordinal, days_in_month, days_before_month. cbn [year month day].
    rewrite is_leap_parts, days_before_year_parts by lia.
    set (leapyear := (c =? 3) && (negb (b =? 24) || (a =? 3))).
    pose proof (month_day_of_ok leapyear r3) as Hmd.
    unfold month_day_ok in Hmd.
    destruct (month_day_of r3 leapyear) as [m d]. cbn [fst snd].
    rewrite !andb_true_iff, !Z.leb_le, Z.eqb_eq in Hmd.
    destruct Hmd as ((((Hm1 & Hm2) & Hd1) & Hd2) & Hsum);
      [destruct leapyear; lia|].
    assert ((if (m =? 2) && leapyear then 29 else DAYS_IN_MONTH m)
            = DAYS_IN_MONTH m + (if (m =? 2) && leapyear then 1 else 0))
      as ->.
    { destruct (Z.eqb_spec m 2) as [->|]; [|simpl; lia].
      destruct leapyear; simpl; lia. }
    unfold MAXORDINAL. repeat split; lia.
Qed.

Lemma fromordinal_valid (n : Z) :
  1 <= n <= MAXORDINAL -> valid (fromordinal n) = true.
Proof.
  intros [H1 H2].
  destruct (fromordinal_spec n H1) as (_ & Hy1 & Hy2 & Hm & Hd).
  unfold valid, MINYEAR, MAXYEAR.
  rewrite !andb_true_iff, !Z.leb_le. repeat split; lia.
Qed.

End ordinal_facts.

Lemma midpoint_spec_ordinal (d1 d2 : date) :
  valid d1 = true -> valid d2 = true ->
  valid (midpoint_spec d1 d2) = true
  /\ toordinal (midpoint_spec d1 d2)
     = toordinal d1 + (toordinal d2 - toordinal d1) / 2.
Proof.
  intros [Ha1 Ha2]%valid_ordinal [Hb1 Hb2]%valid_ordinal.
  unfold midpoint_spec, MAXORDINAL in *.
  assert (1 <= toordinal d1 + (toordinal d2 - toordinal d1) / 2 <= 3652059)
    as Hmid by (Z.div_mod_to_equations; lia).
  split; [by apply fromordinal_valid|].
  apply fromordinal_spec. lia.
Qed.

(** X12. Every date that [__extract_date] returns is a date of the
    calendar: its year is in 1..9999, its month in 1..12 and its day exists
    in that month. *)
Theorem extract_date_valid (s : str) (d : date) :
  __extract_date s = Ok d -> valid d = true.
Proof.
  destruct (Z.eq_dec (separator_count s) 2) as [H2|H2].
  { rewrite extract_date_single_eq by done. apply strptime_valid. }
  destruct (Z.eq_dec (separator_count s) 5) as [H5|H5].
  { rewrite extract_date_range_eq by done. unfold range_date_spec.
    destruct (strptime (take 10 s)) as [d1|] eqn:E1; [|done].
    destruct (strptime (take 10 (drop 11 s))) as [d2|] eqn:E2; [|done].
    intros [= <-]. apply midpoint_spec_ordinal; by eapply strptime_valid. }
  unfold __extract_date. rewrite count_dash.
  destruct (Z.eqb_spec (separator_count s) 2); [done|].
  destruct (Z.eqb_spec (separator_count s) 5); done.
Qed.

Lemma extract_date_valid_witness : valid (mkdate 2018 1 6) = true.
Proof.
  apply (extract_date_valid "2018-01-05-2018-01-07"). vm_compute. reflexivity.
Defined.

(** X13. For a range, the date returned lies on or between the two dates:
    it is the first date moved by half the number of days to the second,
    the half rounded down, so never before the earlier nor after the later
    of the two. *)
Theorem range_midpoint_between (s : str) (d1 d2 : date) :
  separator_count s = 5 ->
  strptime (take 10 s) = Ok d1 ->
  strptime (take 10 (drop 11 s)) = Ok d2 ->
  exists d,
    __extract_date s = Ok d
    /\ toordinal d = toordinal d1 + (toordinal d2 - toordinal d1) / 2
    /\ Z.min (toordinal d1) (toordinal d2) <= toordinal d
       <= Z.max (toordinal d1) (toordinal d2).
Proof.
  intros H5 E1 E2. exists (midpoint_spec d1 d2).
  rewrite extract_date_range_eq by done. unfold range_date_spec.
  rewrite E1, E2. split; [done|].
  destruct (midpoint_spec_ordinal d1 d2) as [_ ->];
    [by eapply strptime_valid..|].
  split; [done|]. Z.div_mod_to_equations. lia.
Qed.

Lemma range_midpoint_between_witness :
  exists d,
    __extract_date "2018-01-08-2018-01-05" = Ok d
    /\ toordinal d
       = toordinal (mkdate 2018 1 8)
         + (toordinal (mkdate 2018 1 5) - toordinal (mkdate 2018 1 8)) / 2
    /\ Z.min (toordinal (mkdate 2018 1 8)) (toordinal (mkdate 2018 1 5))
       <= toordinal d
       <= Z.max (toordinal (mkdate 2018 1 8)) (toordinal (mkdate 2018 1 5)).
Proof.
  exact (range_midpoint_between "2018-01-08-2018-01-05"
           (mkdate 2018 1 8) (mkdate 2018 1 5) eq_refl eq_refl eq_refl).
Defined.

(** ** Reading back a written table *)

Section passes_facts.

Import PyStr.

Lemma passes_nil (sep : str) : passes sep [].
Proof. intros rest. simpl. by destruct (find sep rest). Qed.

Lemma passes_app (sep u v : str) :
  passes sep u -> passes sep v -> passes sep (u ++ v).
Proof.
  intros Hu Hv rest. rewrite <- app_assoc, Hu, Hv, length_app.
  destruct (find sep rest); simpl; [f_equal; lia|done].
Qed.

Lemma passes_concat (sep : str) (us : list str) :
  Forall (passes sep) us -> passes sep (concat us).
Proof.
  induction 1 as [|u us Hu _ IH]; simpl; [apply passes_nil|].
  by apply passes_app.
Qed.

Lemma passes_char (sep : str) (x : ascii) :
  (forall rest, startswith sep (x :: rest) = false) -> passes sep [x].
Proof.
  intros H rest. simpl app. rewrite find_unfold, H.
  by destruct (find sep rest).
Qed.

(** A text without the first character of [sep]. *)
Lemma passes_plain (c0 : ascii) (sep' u : str) :
  Forall (fun x => x <> c0) u -> passes (c0 :: sep') u.
Proof.
  induction 1 as [|x u Hx _ IH]; [apply passes_nil|].
  apply (passes_app _ [x] u); [|done].
  apply passes_char. intros rest. simpl.
  destruct (Ascii.eqb_spec c0 x); [congruence|done].
Qed.

(** A marker that [sep] cannot start in. *)
Lemma passes_marker (sep m : str) :
  never_inside m sep = true -> passes sep m.
Proof.
  induction m as [|x m IH]; [intros _; apply passes_nil|].
  cbn [never_inside]. rewrite andb_true_iff, negb_true_iff.
  intros [Hx Hm] rest. specialize (IH Hm rest).
  cbn [app]. rewrite find_unfold.
  destruct (startswith sep (x :: m ++ rest)) eqn:E.
  - apply (agree_startswith (x :: m) sep rest) in E. congruence.
  - rewrite IH. by destruct (find sep rest).
Qed.

Lemma passes_find_here (sep u rest : str) :
  passes sep u -> find sep (u ++ sep ++ rest) = Some (length u).
Proof.
  intros Hu. rewrite Hu, find_unfold, startswith_app. simpl.
  f_equal. lia.
Qed.

Lemma passes_find_none (sep u : str) :
  sep <> [] -> passes sep u -> find sep u = None.
Proof.
  intros Hsep Hu. specialize (Hu []). rewrite app_nil_r in Hu.
  rewrite Hu. destruct sep; [done|]. done.
Qed.

Lemma split_passes (sep u rest : str) :
  sep <> [] -> passes sep u ->
  split sep (u ++ sep ++ rest) = u :: split sep rest.
Proof.
  intros Hsep Hu. rewrite split_unfold, passes_find_here by done.
  rewrite take_app_length. f_equal. f_equal.
  by rewrite drop_app_add, drop_app_length.
Qed.

(** Pieces that [sep] cannot start in, each after a [sep]. *)
Lemma split_pieces (sep u : str) (ps : list str) :
  sep <> [] -> passes sep u -> Forall (passes sep) ps ->
  split sep (u ++ concat (map (fun p => sep ++ p) ps)) = u :: ps.
Proof.
  intros Hsep Hu Hps. revert u Hu.
  induction Hps as [|p ps Hp _ IH]; intros u Hu; simpl.
  - rewrite app_nil_r, split_unfold, passes_find_none; done.
  - rewrite <- app_assoc, split_passes by done. f_equal. by apply IH.
Qed.

Lemma replace_passes (old u : str) :
  old <> [] -> passes old u -> replace old [] (u ++ old) = u.
Proof.
  intros Hold Hu.
  pose proof (passes_find_here old u [] Hu) as F. rewrite app_nil_r in F.
  rewrite replace_unfold, F by done.
  rewrite take_app_length, drop_app_add, drop_all.
  rewrite replace_unfold by done.
  destruct old; [done|]. simpl. by rewrite app_nil_r.
Qed.

End passes_facts.

Section render_facts.

Import PyStr.

Lemma plain_cell_no_lt (c : str) :
  plain_cell c -> Forall (fun x => x <> "<"%char) c.
Proof. intros H. eapply Forall_impl; [exact H|]. by intros x [? _]. Qed.

Lemma plain_cell_no_whitespace (c : str) :
  plain_cell c -> Forall no_whitespace c.
Proof. intros H. eapply Forall_impl; [exact H|]. by intros x [_ ?]. Qed.

Variable sep' : str.
Let sep : str := "<"%char :: sep'.

Lemma passes_render_cell (c : str) :
  never_inside "<td>" sep = true -> never_inside "</td>" sep = true ->
  plain_cell c -> passes sep (render_cell c).
Proof.
  intros H1 H2 Hc. unfold render_cell.
  apply passes_app; [by apply passes_marker|].
  apply passes_app; [|by apply passes_marker].
  by apply passes_plain, plain_cell_no_lt.
Qed.

Lemma passes_cells (r : list str) :
  never_inside "<td>" sep = true -> never_inside "</td>" sep = true ->
  Forall plain_cell r -> passes sep (concat (map render_cell r)).
Proof.
  intros H1 H2 Hr. apply passes_concat, Forall_map.
  eapply Forall_impl; [exact Hr|]. intros c Hc. by apply passes_render_cell.
Qed.

Lemma passes_rows (t : list (list str)) :
  never_inside "<td>" sep = true -> never_inside "</td>" sep = true ->
  never_inside "<tr>" sep = true -> never_inside "</tr>" sep = true ->
  Forall (Forall plain_cell) t -> passes sep (concat (map render_row t)).
Proof.
  intros H1 H2 H3 H4 Ht. apply passes_concat, Forall_map.
  eapply Forall_impl; [exact Ht|]. intros r Hr. unfold render_row.
  apply passes_app; [by apply passes_marker|].
  apply passes_app; [by apply passes_cells|by apply passes_marker].
Qed.

End render_facts.

Section roundtrip_facts.

Import PyStr.

Lemma extract_cell_piece (c : str) :
  plain_cell c -> extract_cell (cell_piece c) = c.
Proof.
  intros Hc. unfold extract_cell, cell_piece.
  change (find_index ">" ((">" : str) ++ c ++ ("</td>" : str))) with 0.
  change (drop (Z.to_nat (0 + 1)) ((">" : str) ++ c ++ ("</td>" : str)))
    with (c ++ ("</td>" : str)).
  apply replace_passes; [done|].
  by apply (passes_plain "<" "/td>"), plain_cell_no_lt.
Qed.

Lemma concat_render_cells (r : list str) :
  concat (map render_cell r)
  = [] ++ concat (map (fun p => ("<td" : str) ++ p) (map cell_piece r)).
Proof. rewrite map_map. reflexivity. Qed.

Lemma concat_render_rows (t : list (list str)) :
  concat (map render_row t)
  = [] ++ concat (map (fun p => ("<tr" : str) ++ p) (map row_piece t)).
Proof. rewrite map_map. reflexivity. Qed.

Lemma extract_row_data_cells (r : list str) :
  Forall plain_cell r ->
  __extract_row_data (concat (map render_cell r)) = r.
Proof.
  intros Hr. unfold __extract_row_data.
  rewrite concat_render_cells, split_pieces; [|done|apply passes_nil|].
  - cbn [map drop]. rewrite map_map.
    rewrite <- (map_id r) at 2. apply map_ext_Forall.
    eapply Forall_impl; [exact Hr|]. apply extract_cell_piece.
  - apply Forall_map. eapply Forall_impl; [exact Hr|].
    intros c Hc. unfold cell_piece.
    apply (passes_app _ ">"); [by apply passes_marker|].
    apply passes_app; [|by apply passes_marker].
    by apply (passes_plain "<" "td"), plain_cell_no_lt.
Qed.

Lemma row_cells_piece (r : list str) :
  Forall plain_cell r -> row_cells (row_piece r) = r.
Proof.
  intros Hr. unfold row_cells, row_piece.
  set (cells := concat (map render_cell r)).
  change (find_index ">" ((">" : str) ++ cells ++ ("</tr>" : str))) with 0.
  change (drop (Z.to_nat (0 + 1)) ((">" : str) ++ cells ++ ("</tr>" : str)))
    with (cells ++ ("</tr>" : str)).
  assert (passes "</tr>" cells) as Hp by (by apply (passes_cells "/tr>")).
  pose proof (passes_find_here _ _ [] Hp) as F. rewrite app_nil_r in F.
  unfold before_first. rewrite F, take_app_length.
  by apply extract_row_data_cells.
Qed.

Lemma render_table_no_whitespace (t : list (list str)) :
  Forall (Forall plain_cell) t -> Forall no_whitespace (render_table t).
Proof.
  intros Ht.
  assert (forall m : str,
             forallb (fun x => negb (isspace x)) m = true ->
             Forall no_whitespace m) as Hmarker.
  { intros m Hm. rewrite forallb_forall in Hm. apply Forall_forall.
    intros x Hx%list_elem_of_In%Hm. unfold no_whitespace, CR, LF.
    repeat split; intros ->; discriminate Hx. }
  unfold render_table.
  apply Forall_app. split; [by apply Hmarker|].
  apply Forall_app. split; [|by apply Hmarker].
  apply Forall_concat, Forall_map.
  eapply Forall_impl; [exact Ht|]. intros r Hr. unfold render_row.
  apply Forall_app. split; [by apply Hmarker|].
  apply Forall_app. split; [|by apply Hmarker].
  apply Forall_concat, Forall_map.
  eapply Forall_impl; [exact Hr|]. intros c Hc. unfold render_cell.
  apply Forall_app. split; [by apply Hmarker|].
  apply Forall_app. split; [|by apply Hmarker].
  by apply plain_cell_no_whitespace.
Qed.

Lemma replace_char_absent (c : ascii) (s : str) :
  Forall (fun x => x <> c) s -> replace [c] [] s = s.
Proof.
  intros Hs. rewrite replace_char_filter. apply filter_id_Forall.
  eapply Forall_impl; [exact Hs|]. simpl. intros x Hx.
  apply negb_true_iff. destruct (Ascii.eqb_spec c x); congruence.
Qed.

Lemma passes_render_table (sep' : str) (t : list (list str)) :
  never_inside "<table>" ("<"%char :: sep') = true ->
  never_inside "</table>" ("<"%char :: sep') = true ->
  never_inside "<td>" ("<"%char :: sep') = true ->
  never_inside "</td>" ("<"%char :: sep') = true ->
  never_inside "<tr>" ("<"%char :: sep') = true ->
  never_inside "</tr>" ("<"%char :: sep') = true ->
  Forall (Forall plain_cell) t ->
  passes ("<"%char :: sep') (render_table t).
Proof.
  intros H1 H2 H3 H4 H5 H6 Ht. unfold render_table.
  apply passes_app; [by apply passes_marker|].
  apply passes_app; [|by apply passes_marker].
  by apply passes_rows.
Qed.

(** The three one-character replacements of the clean-up, as one
    filter. *)
Lemma clean_table_text_filter (s : str) :
  clean_table_text s = replace "<trstyle" "" (without_whitespace s).
Proof.
  unfold clean_table_text, without_whitespace. f_equal.
  change (replace " " "") with (replace [" "%char] []).
  change (replace [?c] "") with (replace [c] []).
  rewrite !replace_char_filter.
  induction s as [|x s IH]; [done|]. cbn [List.filter].
  unfold is_removed.
  destruct (Ascii.eqb_spec " " x) as [<-|]; [done|]. cbn [negb List.filter].
  destruct (Ascii.eqb_spec CR x) as [<-|]; [done|]. cbn [negb List.filter].
  destruct (Ascii.eqb_spec LF x) as [<-|]; [done|]. cbn [negb orb].
  by rewrite IH.
Qed.

Lemma without_whitespace_id (s : str) :
  Forall no_whitespace s -> without_whitespace s = s.
Proof.
  intros Hs. apply filter_id_Forall.
  eapply Forall_impl; [exact Hs|]. simpl.
  intros x (H1 & H2 & H3). unfold is_removed.
  destruct (Ascii.eqb_spec " " x), (Ascii.eqb_spec CR x),
    (Ascii.eqb_spec LF x); simpl; congruence.
Qed.

(** A text without ["<t"], before a ['<']: no marker that begins with
    ["<t"] can start in it. *)
Lemma find_after_text (u sep' rest : str) :
  find "<t" u = None ->
  find ("<"%char :: "t"%char :: sep') (u ++ "<"%char :: rest)
  = (fun i => (length u + i)%nat)
      <$> find ("<"%char :: "t"%char :: sep') ("<"%char :: rest).
Proof.
  induction u as [|x u IH]; intros Hu.
  - cbn [app length]. by destruct (find _ ("<"%char :: rest)).
  - rewrite find_unfold in Hu.
    destruct (startswith "<t" (x :: u)) eqn:E; [done|].
    destruct (find "<t" u) eqn:F; [done|]. specialize (IH eq_refl).
    cbn [app]. rewrite find_unfold.
    assert (startswith ("<"%char :: "t"%char :: sep')
              (x :: u ++ "<"%char :: rest) = false) as ->.
    { cbn [startswith] in *. change (list_ascii_of_string "<t")
        with ["<"%char; "t"%char] in E. cbn [startswith] in E.
      destruct (Ascii.eqb "<" x); [|done].
      destruct u as [|y u]; [done|]. cbn [app].
      by destruct (Ascii.eqb "t" y). }
    rewrite IH. by destruct (find _ ("<"%char :: rest)).
Qed.

(** [replace] leaves alone a stretch in which [old] cannot start. *)
Lemma replace_after (old new u rest : str) :
  old <> [] ->
  find old (u ++ rest) = (fun i => (length u + i)%nat) <$> find old rest ->
  replace old new (u ++ rest) = u ++ replace old new rest.
Proof.
  intros Hold H. rewrite (replace_unfold old new (u ++ rest)) by done.
  rewrite (replace_unfold old new rest) by done. rewrite H.
  destruct (find old rest) as [i|]; [|done]. cbn [fmap option_fmap option_map].
  rewrite take_app_add, <- Nat.add_assoc, drop_app_add.
  by rewrite <- app_assoc.
Qed.

Lemma before_first_passes (sep u rest : str) :
  passes sep u -> before_first sep (u ++ rest) = u ++ before_first sep rest.
Proof.
  intros Hu. unfold before_first. rewrite Hu.
  destruct (find sep rest) as [i|]; [|done]. simpl.
  by rewrite take_app_add.
Qed.

(** The table of a text that holds a written table, with any text after it
    and, before it, a text in which, white space removed, no ["<t"]
    occurs. *)
Lemma extract_written_table (a b : str) (t : list (list str)) :
  find "<t" (without_whitespace a) = None ->
  Forall (Forall plain_cell) t ->
  __extract_html_table (a ++ render_table t ++ b) = Ok t.
Proof.
  intros Ha Ht. rewrite extract_html_table_eq, clean_table_text_filter.
  unfold without_whitespace at 1. rewrite !List.filter_app.
  fold (without_whitespace a) (without_whitespace (render_table t))
    (without_whitespace b).
  rewrite (without_whitespace_id (render_table t))
    by (by apply render_table_no_whitespace).
  set (a' := without_whitespace a) in *.
  set (body := concat (map render_row t)).
  assert (render_table t = "<"%char :: ("table>" : str) ++ body
                             ++ ("</table>" : str)) as ET by reflexivity.
  (* the clean-up does not touch the table *)
  rewrite (replace_after "<trstyle" "" a'); [|done|]; cycle 1.
  { rewrite ET. cbn [app]. by apply (find_after_text a' "rstyle"). }
  rewrite (replace_after "<trstyle" "" (render_table t)); [|done|]; cycle 1.
  { by apply (passes_render_table "trstyle"). }
  set (b' := replace "<trstyle" "" (without_whitespace b)).
  (* the table region *)
  assert (table_with_metadata (a' ++ render_table t ++ b') = Ok body) as ->.
  { rewrite table_with_metadata_eq.
    assert (find "<table>" (a' ++ render_table t ++ b') = Some (length a'))
      as ->.
    { rewrite ET. cbn [app].
      rewrite (find_after_text a' "able>") by done.
      rewrite find_unfold. simpl. f_equal. lia. }
    rewrite drop_app_add.
    change (drop 7 (render_table t ++ b'))
      with ((body ++ ("</table>" : str)) ++ b').
    f_equal.
    rewrite before_first_passes, <- app_assoc; cycle 1.
    { apply passes_app; [by apply (passes_rows "table>")|].
      by apply passes_marker. }
    assert (passes "</table>" body) as H2
      by (by apply (passes_rows "/table>")).
    unfold before_first at 1.
    by rewrite (passes_find_here _ _ _ H2), take_app_length. }
  cbn [mbind result_bind].
  unfold body. rewrite concat_render_rows, split_pieces;
    [|done|apply passes_nil|].
  - change (drop 1 ([] :: map row_piece t)) with (map row_piece t).
    rewrite map_map. f_equal.
    rewrite <- (map_id t) at 2. apply map_ext_Forall.
    eapply Forall_impl; [exact Ht|]. apply row_cells_piece.
  - apply Forall_map. eapply Forall_impl; [exact Ht|].
    intros r Hr. unfold row_piece.
    apply (passes_app _ ">"); [by apply passes_marker|].
    apply passes_app; [|by apply passes_marker].
    by apply (passes_cells "tr").
Qed.

End roundtrip_facts.

(** X14. Reading back a written table: for every table whose cell texts
    have no ['<'], no space, no carriage return and no line feed,
    [__extract_html_table] gives back that table, every row and every cell
    in place (empty cells, empty rows and the empty table included), from
    its markup followed by any text and preceded by any text in which,
    white space removed, no ["<t"] occurs. *)
Theorem extract_render_table (a b : str) (t : list (list str)) :
  PyStr.find "<t" (without_whitespace a) = None ->
  Forall (Forall plain_cell) t ->
  __extract_html_table (a ++ render_table t ++ b) = Ok t.
Proof. apply extract_written_table. Qed.

Lemma extract_render_table_witness :
  __extract_html_table
    ("</h2> " ++ render_table [ ["a" : str; "" : str]; []; ["b,c" : str] ]
       ++ " <h2>")
  = Ok [ ["a" : str; "" : str]; []; ["b,c" : str] ].
Proof.
  apply (extract_render_table "</h2> " " <h2>").
  - vm_compute. reflexivity.
  - repeat constructor; discriminate.
Defined.

(** X15. The three extractors read nothing but the table of their section:
    when the section of the report is a written table, with a text before
    it in which (white space removed) no ["<t"] occurs and any text after
    it, each extractor returns what its table-level function returns on
    that table. *)
Theorem extractors_read_section_table
    (report a b : str) (t : list (list str)) :
  PyStr.find "<t" (without_whitespace a) = None ->
  Forall (Forall plain_cell) t ->
  (battery_info_section report = Ok (a ++ render_table t ++ b) ->
   get_battery_information report = information_of_table t)
  /\ (capacity_info_section report = Ok (a ++ render_table t ++ b) ->
      get_capacity_data report = capacity_of_table t)
  /\ (usage_info_section report = Ok (a ++ render_table t ++ b) ->
      get_usage_data report = usage_of_table t).
Proof.
  intros Ha Ht.
  pose proof (extract_written_table a b t Ha Ht) as E.
  unfold get_battery_information, get_capacity_data, get_usage_data.
  repeat split; intros ->; cbn [mbind result_bind]; by rewrite E.
Qed.

Lemma extractors_read_section_table_witness :
  get_usage_data written_usage_report
  = usage_of_table
      [ ["PERIOD" : str; "ACTIVE" : str]; [];
        ["2018-01-10" : str; "2:00:00" : str] ].
Proof.
  refine (proj2 (proj2 (extractors_read_section_table written_usage_report
    "</h2> " " <h2>"
    [ ["PERIOD" : str; "ACTIVE" : str]; [];
      ["2018-01-10" : str; "2:00:00" : str] ] _ _)) _).
  - vm_compute. reflexivity.
  - repeat constructor; discriminate.
  - vm_compute. reflexivity.
Defined.

Section count_rows.

Import PyStr.

(** [len(s.split(sep))] is one more than [s.count(sep)]. *)
Lemma length_split (sep s : str) :
  sep <> [] ->
  length (split sep s) = S (count_fuel (length s) sep s).
Proof.
  intros Hsep. remember (length s) as n eqn:Hn. revert s Hn.
  induction n as [n IH] using lt_wf_ind. intros s ->.
  rewrite split_unfold, count_fuel_unfold by done.
  destruct (find sep s) as [i|] eqn:F; [|done].
  pose proof (find_Some _ _ _ F) as (_ & Hlen & _).
  cbn [length]. f_equal. eapply IH; [|done].
  rewrite length_drop. destruct sep; [done|]. simpl in *. lia.
Qed.

End count_rows.

(** X16. The tokenizer makes one row for every ["<tr"] of the table region
    and one cell for every ["<td"] of a row, whatever follows these
    letters and whether or not an end marker is there. *)
Theorem rows_and_cells_counted (s content : str) (r : str) :
  table_with_metadata (clean_table_text s) = Ok content ->
  (exists table,
      __extract_html_table s = Ok table
      /\ Z.of_nat (length table) = PyStr.count "<tr" content)
  /\ Z.of_nat (length (__extract_row_data r)) = PyStr.count "<td" r.
Proof.
  intros H. split.
  - rewrite extract_html_table_eq, H. cbn [mbind result_bind].
    eexists. split; [done|].
    rewrite length_map, length_drop, length_split by done.
    unfold PyStr.count. lia.
  - unfold __extract_row_data.
    rewrite length_drop, length_map, length_split by done.
    unfold PyStr.count. lia.
Qed.

Lemma rows_and_cells_counted_witness :
  (exists table,
      __extract_html_table "<table><tr><td>a<td>b<trclass=x></table>"
      = Ok table
      /\ Z.of_nat (length table) = PyStr.count "<tr" "<tr><td>a<td>b<trclass=x>")
  /\ Z.of_nat (length (__extract_row_data "<td>a<td>b")) = PyStr.count "<td" "<td>a<td>b".
Proof.
  apply (rows_and_cells_counted "<table><tr><td>a<td>b<trclass=x></table>").
  vm_compute. reflexivity.
Defined.
